(** * Company research agent: provider clients, research orchestrator,
      report synthesizer and delivery pipeline.

    A shallow embedding of
      - src/third_party_api/apollo_organization_api.py
      - src/third_party_api/coresignal_multisource_api.py
      - src/search_engines/tavily_search.py
      - src/researchers/multi_source_researcher.py
      - src/api/email_service.py
      - src/api/drive_uploader_complete.py
      - src/api/company_research_fastapi.py
    Python values coming from JSON are an inductive type [json]; exceptions
    are values of [exn] carried by the error monad [result]; the file
    system, the network log and the LLM log are fields of an explicit
    [world] that every effectful function threads through. *)

From Stdlib Require Import ZArith Ascii String.
From stdpp Require Import base option list strings gmap sorting.

Local Open Scope string_scope.

(** ** Python exceptions and the error monad *)

Inductive exn_class :=
| Exception
| AttributeError | TypeError | ValueError | KeyError
| JSONDecodeError | IOError | UnicodeDecodeError | FileNotFoundError
| HTTPError | ConnectionError | ValidationError | CalledProcessError
| OtherError.

Record exn := Exn { exn_cls : exn_class; exn_msg : string }.

Inductive result (A : Type) :=
| Ok (a : A)
| Raise (e : exn).
Arguments Ok {A} a.
Arguments Raise {A} e.

Global Instance result_ret : MRet result := fun _ a => Ok a.
Global Instance result_bind : MBind result := fun _ _ f m =>
  match m with Ok a => f a | Raise e => Raise e end.

Definition is_ok {A} (r : result A) : bool :=
  match r with Ok _ => true | Raise _ => false end.

Global Instance exn_class_eq_dec : EqDecision exn_class.
Proof. solve_decision. Defined.

(** The part of Python's exception hierarchy the code relies on:
    [IOError] is [OSError], of which [FileNotFoundError] and the exceptions
    of [requests] are subclasses; [JSONDecodeError] and [UnicodeDecodeError]
    are [ValueError]s. *)
Definition parent_class (c : exn_class) : option exn_class :=
  match c with
  | FileNotFoundError | HTTPError | ConnectionError => Some IOError
  | JSONDecodeError | UnicodeDecodeError | ValidationError => Some ValueError
  | _ => None
  end.

Definition isinstance (c cls : exn_class) : bool :=
  bool_decide (cls = Exception) || bool_decide (c = cls)
  || bool_decide (parent_class c = Some cls).

(** Does [except (classes)] catch [e]? [except Exception] catches all. *)
Definition catches (classes : list exn_class) (e : exn) : bool :=
  existsb (isinstance (exn_cls e)) classes.

(** ** JSON values (what [json.load] and [response.json()] produce)

    Numbers are integers here: no claim depends on a fraction, and a
    similarity score is only ever compared. *)

#[local] Set Warnings "-register-all".

Inductive json :=
| JNull
| JBool (b : bool)
| JNum (z : Z)
| JStr (s : string)
| JList (l : list json)
| JObj (kvs : list (string * json)).

(** Python truthiness, as used by [if x], [x and y], [x or y]. *)
Definition truthy (j : json) : bool :=
  match j with
  | JNull => false
  | JBool b => b
  | JNum z => negb (z =? 0)%Z
  | JStr s => negb (String.eqb s "")
  | JList l => match l with [] => false | _ => true end
  | JObj kvs => match kvs with [] => false | _ => true end
  end.

Fixpoint assoc (k : string) (kvs : list (string * json)) : option json :=
  match kvs with
  | [] => None
  | (k', v) :: rest => if String.eqb k k' then Some v else assoc k rest
  end.

(** [d[k] = v]: the key keeps its position when it exists, else it is
    appended (Python dicts keep insertion order). *)
Fixpoint assoc_set (k : string) (v : json) (kvs : list (string * json))
  : list (string * json) :=
  match kvs with
  | [] => [(k, v)]
  | (k', v') :: rest =>
      if String.eqb k k' then (k, v) :: rest else (k', v') :: assoc_set k v rest
  end.

Definition attribute_error (what : string) : exn :=
  Exn AttributeError ("object has no attribute '" +:+ what +:+ "'").

(** [d.get(k, default)]: only dicts have [get]; a present key wins over the
    default even when its value is [None]. *)
Definition py_get_default (d : json) (k : string) (default : json) : result json :=
  match d with
  | JObj kvs => Ok (match assoc k kvs with Some v => v | None => default end)
  | _ => Raise (attribute_error "get")
  end.

(** [d.get(k)] is [d.get(k, None)]. *)
Definition py_get (d : json) (k : string) : result json :=
  py_get_default d k JNull.

(** What a value holds under a key: [JNull] when the key is missing or
    the value is not a dict. *)
Definition field (j : json) (k : string) : json :=
  match j with
  | JObj kvs => match assoc k kvs with Some v => v | None => JNull end
  | _ => JNull
  end.

(** ** Python string methods on ASCII strings *)

(** [s.replace(old, new)]: leftmost non-overlapping occurrences. [skip]
    counts the characters of a matched occurrence still to be dropped. *)
Fixpoint replace_from (old new : string) (skip : nat) (s : string) : string :=
  match s with
  | EmptyString => EmptyString
  | String c s' =>
      match skip with
      | S k => replace_from old new k s'
      | O =>
          if String.prefix old s
          then new +:+ replace_from old new (String.length old - 1) s'
          else String c (replace_from old new 0 s')
      end
  end.

Fixpoint replace_empty (new s : string) : string :=
  match s with
  | EmptyString => new
  | String c s' => new +:+ String c (replace_empty new s')
  end.

Definition replace (s old new : string) : string :=
  match old with
  | EmptyString => replace_empty new s
  | _ => replace_from old new 0 s
  end.

Definition is_lower (c : ascii) : bool :=
  let n := nat_of_ascii c in (97 <=? n)%nat && (n <=? 122)%nat.
Definition is_upper (c : ascii) : bool :=
  let n := nat_of_ascii c in (65 <=? n)%nat && (n <=? 90)%nat.
Definition to_upper (c : ascii) : ascii :=
  if is_lower c then ascii_of_nat (nat_of_ascii c - 32) else c.
Definition to_lower (c : ascii) : ascii :=
  if is_upper c then ascii_of_nat (nat_of_ascii c + 32) else c.

(** [s.title()]: a cased character that follows an uncased one is put in
    upper case, every other cased character in lower case. *)
Fixpoint title_from (previous_is_cased : bool) (s : string) : string :=
  match s with
  | EmptyString => EmptyString
  | String c s' =>
      if is_lower c then
        String (if previous_is_cased then c else to_upper c) (title_from true s')
      else if is_upper c then
        String (if previous_is_cased then to_lower c else c) (title_from true s')
      else String c (title_from false s')
  end.

Definition title (s : string) : string := title_from false s.

(** An f-string: literal text and the values put in its holes. *)
Inductive fpart :=
| Lit (s : string)
| Hole (j : json).

Definition fstring := list fpart.

(** The prompt handed to the LLM: the f-string of the caller with the
    values of its holes. The fixed text between the holes (section list and
    instructions) is the same for every call and is left out. *)
Inductive prompt :=
| MultiSourcePrompt (company_name coresignal_data apollo_data : json)
    (customers : list json)
| CoreSignalPrompt (website : string) (schema : json) (news : fstring)
    (competitors : list json) (all_company_updates : list json)
    (api_response : json).

(** ** The world: file system, network log, LLM log *)

(** What a file holds, as far as [json.load] can tell: a JSON document,
    text that is not JSON, bytes that do not decode, a file that cannot
    be opened for reading; and the artifacts written by the handlers. *)
Inductive file :=
| FJson (j : json)
| FInvalidJson
| FUndecodable
| FUnreadable
| FText (s : string)
| FPdf (source : string).

(** A request sent to a provider, by what tells it from the others. *)
Inductive request :=
| ApolloGet (domain : string)
| CoreSignalGet (website : string)
| TavilySearch (query : fstring).

Record world := World {
  fs : gmap string file;
  net_log : list request;
  llm_log : list prompt
}.

Definition with_fs (f : gmap string file -> gmap string file) (w : world) : world :=
  {| fs := f (fs w); net_log := net_log w; llm_log := llm_log w |}.

(** State and exceptions: a computation returns or raises, and in both
    cases leaves a world behind. *)
Definition M (A : Type) : Type := world -> result A * world.

Definition ret {A} (a : A) : M A := fun w => (Ok a, w).
Definition raise {A} (e : exn) : M A := fun w => (Raise e, w).
Definition bind {A B} (m : M A) (f : A -> M B) : M B := fun w =>
  match m w with
  | (Ok a, w') => f a w'
  | (Raise e, w') => (Raise e, w')
  end.
Definition lift {A} (r : result A) : M A := fun w => (r, w).

Declare Scope M_scope.
Delimit Scope M_scope with M.
Notation "x <- m ;; k" := (bind m (fun x => k))
  (at level 100, m at next level, right associativity) : M_scope.
Notation "m ;;; k" := (bind m (fun _ => k))
  (at level 100, right associativity) : M_scope.

(** [try: body  except (classes): handler]. *)
Definition try_except {A} (body : M A) (classes : list exn_class)
    (handler : exn -> M A) : M A := fun w =>
  match body w with
  | (Ok a, w') => (Ok a, w')
  | (Raise e, w') => if catches classes e then handler e w' else (Raise e, w')
  end.

Definition exists_file (path : string) : M bool := fun w =>
  (Ok (bool_decide (is_Some (fs w !! path))), w).

(** [with open(path, "r") as f: json.load(f)]. *)
Definition json_load (path : string) : M json := fun w =>
  match fs w !! path with
  | None => (Raise (Exn FileNotFoundError path), w)
  | Some (FJson j) => (Ok j, w)
  | Some FUnreadable => (Raise (Exn IOError path), w)
  | Some FUndecodable => (Raise (Exn UnicodeDecodeError path), w)
  | Some _ => (Raise (Exn JSONDecodeError path), w)
  end.

(** [with open(path, "w") as f: json.dump(result, f, indent=2)]. *)
Definition json_dump (result : json) (path : string) : M unit := fun w =>
  (Ok tt, with_fs (insert path (FJson result)) w).

Definition write_file (path : string) (f : file) : M unit := fun w =>
  (Ok tt, with_fs (insert path f) w).

(** [os.unlink(path)]. *)
Definition unlink (path : string) : M unit := fun w =>
  match fs w !! path with
  | None => (Raise (Exn FileNotFoundError path), w)
  | Some _ => (Ok tt, with_fs (delete path) w)
  end.

Definition sent (r : request) (w : world) : world :=
  {| fs := fs w; net_log := (net_log w ++ [r])%list; llm_log := llm_log w |}.

Definition send (r : request) : M unit := fun w => (Ok tt, sent r w).

(** What [requests.get] does: it raises, or it returns a response with a
    status code and a body that is JSON or is not. *)
Inductive http_outcome :=
| HttpFail (e : exn)
| HttpResponse (status : Z) (body : option json).

Record response := Response { status_code : Z; body : option json }.

Definition requests_get (r : request) (o : http_outcome) : M response :=
  (send r ;;;
   match o with
   | HttpFail e => raise e
   | HttpResponse st b => ret (Response st b)
   end)%M.

(** [response.raise_for_status()]: [HTTPError] on 4xx and 5xx. *)
Definition raise_for_status (r : response) : M unit :=
  if ((400 <=? status_code r) && (status_code r <? 600))%Z
  then raise (Exn HTTPError "bad status")
  else ret tt.

(** [response.json()]. *)
Definition response_json (r : response) : M json :=
  match body r with
  | Some j => ret j
  | None => raise (Exn JSONDecodeError "response body")
  end.

(** [os.getenv] over the process environment. *)
Definition os_getenv (environ : gmap string string) (k : string) : option string :=
  environ !! k.

Definition unset (v : option string) : bool :=
  match v with None => true | Some s => String.eqb s "" end.

Definition results_dir : string :=
  "third_party_api/../results/third_party_api_response".

(** ** Python built-ins on JSON values *)

Definition type_error (what : string) : exn := Exn TypeError what.

Definition chars (s : string) : list json :=
  (fun c => JStr (String c EmptyString)) <$> list_ascii_of_string s.

(** [for x in j]: lists give their items, strings their characters, dicts
    their keys. *)
Definition py_iter (j : json) : result (list json) :=
  match j with
  | JList l => Ok l
  | JStr s => Ok (chars s)
  | JObj kvs => Ok ((fun kv => JStr kv.1) <$> kvs)
  | _ => Raise (type_error "object is not iterable")
  end.

(** [j[:n]]. *)
Definition py_slice (n : nat) (j : json) : result json :=
  match j with
  | JList l => Ok (JList (take n l))
  | JStr s => Ok (JStr (String.substring 0 n s))
  | _ => Raise (type_error "object is not subscriptable")
  end.

(** [len(j)]. *)
Definition py_len (j : json) : result nat :=
  match j with
  | JList l => Ok (length l)
  | JStr s => Ok (String.length s)
  | JObj kvs => Ok (length kvs)
  | _ => Raise (type_error "object has no len()")
  end.

(** [x or y]. *)
Definition py_or (x y : json) : json := if truthy x then x else y.

Fixpoint mapM {A B} (f : A -> result B) (l : list A) : result (list B) :=
  match l with
  | [] => Ok []
  | x :: l' =>
      match f x with
      | Ok y => match mapM f l' with Ok ys => Ok (y :: ys) | Raise e => Raise e end
      | Raise e => Raise e
      end
  end.

Definition nl : string := String (ascii_of_nat 10) EmptyString.

(** ** Report synthesis *)

(** One round of the loop over [company_updates[:3]] (the same text in
    multi_source_researcher.py, lines 144-153, and in
    coresignal_multisource_api.py, lines 294-303). *)
Definition news_item (i : nat) (update : json) : result fstring :=
  date ← py_get_default update "date" (JStr "No Date");
  summary ← (py_get_default update "description" (JStr "No description available")
             ≫= py_slice 500);
  n ← (py_get_default update "description" (JStr "") ≫= py_len);
  reactions ← py_get update "reactions_count";
  comments ← py_get update "comments_count";
  Ok (([Lit "### News Item "; Hole (JNum (Z.of_nat i)); Lit nl;
       Lit "**Date:** "; Hole date; Lit ("  " +:+ nl);
       Lit "**Summary:** "; Hole summary;
       Lit (if (500 <? n)%nat then "..." else ""); Lit ("  " +:+ nl)]
      ++ (if truthy reactions
          then [Lit "**Engagement:** "; Hole reactions; Lit " reactions"] else [])
      ++ (if truthy comments
          then [Lit ", "; Hole comments; Lit " comments"] else [])
      ++ [Lit (nl +:+ nl)])%list).

Fixpoint news_items (i : nat) (updates : list json) : result fstring :=
  match updates with
  | [] => Ok []
  | update :: rest =>
      item ← news_item i update;
      more ← news_items (S i) rest;
      Ok (item ++ more)%list
  end.

Definition recent_news (company_updates : json) : result fstring :=
  if truthy company_updates then
    first3 ← py_slice 3 company_updates;
    items ← py_iter first3;
    news_items 1 items
  else Ok [Lit ("No recent news items found." +:+ nl +:+ nl)].

Definition all_descriptions (company_updates : json) : result (list json) :=
  items ← py_iter company_updates;
  mapM (fun update => py_get_default update "description" (JStr "")) items.

(** The sort key [lambda x: x.get("similarity_score") or 0]. *)
Definition similarity_key (x : json) : result json :=
  v ← py_get x "similarity_score"; Ok (py_or v (JNum 0)).

(** The number a key compares as ([True] is 1). *)
Definition numeric (k : json) : option Z :=
  match k with
  | JNum z => Some z
  | JBool b => Some (if b then 1 else 0)%Z
  | _ => None
  end.

(** Stable insertion in descending key order: [x] stood before every
    item of [l] and stays before those with an equal key. *)
Fixpoint insert_desc (x : Z * json) (l : list (Z * json)) : list (Z * json) :=
  match l with
  | [] => [x]
  | y :: l' => if (x.1 <? y.1)%Z then y :: insert_desc x l' else x :: y :: l'
  end.

Definition sort_desc (l : list (Z * json)) : list (Z * json) :=
  foldr insert_desc [] l.

(** The order [sort_desc] establishes on the keyed items. *)
Definition key_desc (a b : Z * json) : Prop := (b.1 <= a.1)%Z.

Fixpoint decorate (keys : list json) (items : list json) : option (list (Z * json)) :=
  match keys, items with
  | k :: keys', x :: items' =>
      match numeric k, decorate keys' items' with
      | Some z, Some r => Some ((z, x) :: r)
      | _, _ => None
      end
  | _, _ => Some []
  end.

(** [competitors.sort(key=..., reverse=True)]: every key is computed
    first, then the list is sorted in place, stably, largest key first.
    With fewer than two items nothing is compared. Keys that are not
    numbers are outside this model, which raises for them, as Python does
    when one of them meets a number. The result is the new content of
    the list object. *)
Definition sort_by_similarity (competitors : json) : result (list json) :=
  match competitors with
  | JList l =>
      keys ← mapM similarity_key l;
      match decorate keys l with
      | Some dl => Ok ((sort_desc dl).*2)
      | None =>
          if (length l <? 2)%nat then Ok l
          else Raise (type_error "'<' not supported between instances")
      end
  | _ => Raise (attribute_error "sort")
  end.

(** The three statements of lines 163-166 (lines 313-316 in the CoreSignal
    client). [data.get("competitors", [])] is the list object held by
    [data], not a copy, so sorting it changes [data]; the slice is a
    new list. Returns the local [competitors] and [data] as it is
    afterwards. *)
Definition extract_competitors (data : json) : result (list json * json) :=
  competitors ← py_get_default data "competitors" (JList []);
  sorted ← sort_by_similarity competitors;
  let data' :=
    match data with
    | JObj kvs =>
        match assoc "competitors" kvs with
        | Some _ => JObj (assoc_set "competitors" (JList sorted) kvs)
        | None => data
        end
    | _ => data
    end in
  Ok (take 5 sorted, data').

Definition prompted (p : prompt) (w : world) : world :=
  {| fs := fs w; net_log := net_log w; llm_log := (llm_log w ++ [p])%list |}.

Definition llm_call (p : prompt) (llm : prompt -> result string) : M string :=
  fun w => (llm p, prompted p w).

(** ** Provider client: Apollo organization enrichment *)

Module ApolloOrganizationAPI.

Record t := mk { domain : string }.

(** [__init__] (lines 11-22). *)
Definition __init__ (environ : gmap string string) (domain : string) : result t :=
  if unset (os_getenv environ "APOLLO_API_KEY")
  then Raise (Exn ValueError "APOLLO_API_KEY not set in environment variables.")
  else Ok (mk domain).

Definition file_path (self : t) : string :=
  let company_slug := replace (replace (domain self) "." "_") " " "_" in
  results_dir +:+ "/" +:+ company_slug +:+ "_apollo_api_response.json".

(** The part after the cache lookup (lines 46-57): no status check. *)
Definition fresh_call (self : t) (http : http_outcome) : M json :=
  (response <- requests_get (ApolloGet (domain self)) http ;;
   result <- response_json response ;;
   json_dump result (file_path self) ;;;
   ret result)%M.

(** [organization_enrichment_api] (lines 24-57). [None] from the cache
    lookup stands for falling out of the [if] or of the [except]. *)
Definition organization_enrichment_api (self : t) (http : http_outcome) : M json :=
  (present <- exists_file (file_path self) ;;
   cached <- (if present : bool
              then try_except (result <- json_load (file_path self) ;; ret (Some result))
                     [JSONDecodeError; IOError] (fun _ => ret None)
              else ret None) ;;
   match cached with
   | Some result => ret result
   | None => fresh_call self http
   end)%M.

End ApolloOrganizationAPI.

(** ** Provider client: CoreSignal multi-source *)

Module CoreSignalMultiSourceAPI.

Record t := mk { website : string; website_slug : string }.

(** [__init__] (lines 14-30). *)
Definition __init__ (environ : gmap string string) (website : string) : result t :=
  if unset (os_getenv environ "CORESIGNAL_API_KEY")
  then Raise (Exn ValueError "CORESIGNAL_API_KEY not set in environment variables.")
  else Ok (mk website
             (replace (replace (replace (replace (replace website
                "https://" "") "http://" "") "www." "") "." "_") "/" "_")).

Definition file_path (self : t) : string :=
  results_dir +:+ "/" +:+ website_slug self
    +:+ "_coresignal_multisource_api_response.json".

(** The [try] block of lines 62-77; its handler prints and re-raises. *)
Definition fresh_call (self : t) (http : http_outcome) : M json :=
  try_except
    (response <- requests_get (CoreSignalGet (website self)) http ;;
     raise_for_status response ;;;
     result <- response_json response ;;
     json_dump result (file_path self) ;;;
     ret result)%M
    [Exception] (fun e => raise e).

(** [company_multi_source_enrich] (lines 32-77). *)
Definition company_multi_source_enrich (self : t) (http : http_outcome) : M json :=
  (present <- exists_file (file_path self) ;;
   cached <- (if present : bool
              then try_except (result <- json_load (file_path self) ;; ret (Some result))
                     [JSONDecodeError; IOError] (fun _ => ret None)
              else ret None) ;;
   match cached with
   | Some result => ret result
   | None => fresh_call self http
   end)%M.

Definition schema_path : string := "third_party_api/../company_research_schema.json".

(** [load_company_schema] (lines 79-97): both handlers raise again an
    exception of the class they caught. *)
Definition load_company_schema (self : t) : M json :=
  try_except (json_load schema_path) [FileNotFoundError; JSONDecodeError]
    (fun e => raise e).

(** [generate_markdown_report_with_llm] (lines 287-354). The holes of the
    prompt are filled in the order of the text, the schema first. Returns
    the report and [api_response] as the call leaves it. *)
Definition generate_markdown_report_with_llm (self : t) (api_response : json)
    (llm : prompt -> result string) : M (string * json) :=
  (company_updates <- lift (py_get_default api_response "company_updates" (JList [])) ;;
   news <- lift (recent_news company_updates) ;;
   all_company_updates <- lift (all_descriptions company_updates) ;;
   cs <- lift (extract_competitors api_response) ;;
   let '(competitors, api_response') := cs in
   schema <- load_company_schema self ;;
   report <- llm_call (CoreSignalPrompt (website self) schema news competitors
                         all_company_updates api_response') llm ;;
   ret (report, api_response'))%M.

End CoreSignalMultiSourceAPI.

(** ** Provider client: Tavily web search *)

Record TavilySearchResult := {
  url : string;
  title_ : string;
  score : Z;
  published_date : option string;
  content : option string
}.

Definition validation_error (field : string) : exn := Exn ValidationError field.

Definition required_str (r : json) (k : string) : result string :=
  v ← py_get r k;
  match v with JStr s => Ok s | _ => Raise (validation_error k) end.

Definition optional_str (r : json) (k : string) : result (option string) :=
  v ← py_get r k;
  match v with
  | JNull => Ok None
  | JStr s => Ok (Some s)
  | _ => Raise (validation_error k)
  end.

(** The constructor call on the unpacked dict [r]: the two strings and the score are required,
    the other two fields default to [None], unknown keys are dropped. The
    coercions of the validation library (a numeric string for the score)
    are not modelled: such a hit is refused here. *)
Definition TavilySearchResult_of (r : json) : result TavilySearchResult :=
  match r with
  | JObj _ =>
      u ← required_str r "url";
      t ← required_str r "title";
      s ← (py_get r "score" ≫= λ v,
           match v with JNum z => Ok z | _ => Raise (validation_error "score") end);
      p ← optional_str r "published_date";
      c ← optional_str r "content";
      Ok {| url := u; title_ := t; score := s; published_date := p; content := c |}
  | _ => Raise (type_error "argument after ** must be a mapping")
  end.

Definition opt_json (o : option string) : json :=
  match o with Some s => JStr s | None => JNull end.

Definition model_dump (c : TavilySearchResult) : json :=
  JObj [("url", JStr (url c)); ("title", JStr (title_ c)); ("score", JNum (score c));
        ("published_date", opt_json (published_date c));
        ("content", opt_json (content c))].

Definition customers_query (company_name : json) : fstring :=
  [Lit "Who are the major/enterprise customers of "; Hole company_name; Lit "?"].

(** [get_major_customers_async] (tavily_search.py, lines 31-43): no cache
    is consulted; every call is one search. [search] is the outcome of the
    client's [search] call for the query. *)
Definition get_major_customers_async (company_name : json)
    (search : fstring -> result json) : M (list TavilySearchResult) :=
  (let query := customers_query company_name in
   send (TavilySearch query) ;;;
   response <- lift (search query) ;;
   results <- lift (py_get_default response "results" (JList [])) ;;
   items <- lift (py_iter results) ;;
   lift (mapM TavilySearchResult_of (filter (fun r => truthy r = true) items)))%M.

(** ** Research orchestrator *)

Inductive provider := Apollo | Tavily | CoreSignal.

Global Instance provider_eq_dec : EqDecision provider.
Proof. solve_decision. Defined.

(** Everything outside the program that one research request meets: the
    answers of the three providers and of the LLM, and the order in which
    the three concurrent fetches finish. *)
Record oracle := {
  apollo_http : http_outcome;
  coresignal_http : http_outcome;
  tavily_search : fstring -> result json;
  llm_invoke : prompt -> result string;
  completion_order : list provider
}.

(** Run a task to its end and keep its outcome instead of raising. *)
Definition attempt {A} (m : M A) : M (result A) := fun w =>
  let '(r, w') := m w in (Ok r, w').

Definition failure_of {A} (r : result A) : option exn :=
  match r with Ok _ => None | Raise e => Some e end.

(** [await asyncio.gather(apollo_task, tavily_task, coresignal_task)]:
    the first task to fail makes [gather] raise its exception; when none
    fails the results come in the order of the arguments. A provider
    missing from [order] finishes after the listed ones, in argument
    order. *)
Definition gather {A B C} (order : list provider)
    (ra : result A) (rt : result B) (rc : result C) : result (A * B * C) :=
  let failure p :=
    match p with
    | Apollo => failure_of ra
    | Tavily => failure_of rt
    | CoreSignal => failure_of rc
    end in
  match omap failure (order ++ [Apollo; Tavily; CoreSignal])%list with
  | e :: _ => Raise e
  | [] =>
      match ra, rt, rc with
      | Ok a, Ok b, Ok c => Ok (a, b, c)
      | Raise e, _, _ | _, Raise e, _ | _, _, Raise e => Raise e
      end
  end.

Module MultiSourceResearcher.

Record t := mk {
  domain : string;
  apollo_api : ApolloOrganizationAPI.t;
  coresignal_api : CoreSignalMultiSourceAPI.t;
  _company_name : option json
}.

(** [__init__] (lines 33-44). The construction of the LLM client is
    outside this model. *)
Definition __init__ (environ : gmap string string) (domain : string) : result t :=
  apollo ← ApolloOrganizationAPI.__init__ environ domain;
  coresignal ← CoreSignalMultiSourceAPI.__init__ environ domain;
  Ok (mk domain apollo coresignal None).

(** The fallback display name (line 51). *)
Definition fallback_name (domain : string) : string :=
  title (replace (replace domain ".com" "") "www." "").

(** The [company_name] property (lines 46-52). *)
Definition company_name (self : t) : json :=
  match _company_name self with
  | None => JStr (fallback_name (domain self))
  | Some n => n
  end.

Definition set_name (self : t) (n : json) : t :=
  mk (domain self) (apollo_api self) (coresignal_api self) (Some n).

(** [_set_company_name_from_data] (lines 54-63). Each condition is a
    Python [a and b]: [a] itself when [a] is falsy, else [b]; the value
    stored is the one the condition has just read. *)
Definition _set_company_name_from_data (self : t)
    (apollo_data coresignal_data : json) : result t :=
  c1 ← (if truthy apollo_data
        then py_get_default apollo_data "organization" (JObj []) ≫= λ org,
             py_get org "name"
        else Ok apollo_data);
  if truthy c1 then Ok (set_name self c1)
  else
    c2 ← (if truthy coresignal_data
          then py_get coresignal_data "company_name"
          else Ok coresignal_data);
    if truthy c2 then Ok (set_name self c2)
    else
      c3 ← (if truthy apollo_data
            then py_get apollo_data "name"
            else Ok apollo_data);
      if truthy c3 then Ok (set_name self c3)
      else Ok self.

(** [fetch_apollo_data], [fetch_coresignal_data], [fetch_tavily_data]
    (lines 85-120). *)
Definition fetch_apollo_data (self : t) (o : oracle) : M json :=
  ApolloOrganizationAPI.organization_enrichment_api (apollo_api self) (apollo_http o).

Definition fetch_coresignal_data (self : t) (o : oracle) : M json :=
  CoreSignalMultiSourceAPI.company_multi_source_enrich (coresignal_api self)
    (coresignal_http o).

Definition fetch_tavily_data (self : t) (o : oracle) : M (list TavilySearchResult) :=
  get_major_customers_async (company_name self) (tavily_search o).

(** [generate_llm_company_report] (lines 122-237). [news],
    [all_company_updates] and the local [competitors] are computed and
    not put in the prompt; the prompt dumps [coresignal_data] after the
    sort. Returns the report and [coresignal_data] as the call leaves
    it. *)
Definition generate_llm_company_report (self : t)
    (apollo_data coresignal_data : json) (customers : list TavilySearchResult)
    (llm : prompt -> result string) : M (string * json) :=
  (company_updates <- lift (py_get_default coresignal_data "company_updates" (JList [])) ;;
   news <- lift (recent_news company_updates) ;;
   all_company_updates <- lift (all_descriptions company_updates) ;;
   cs <- lift (extract_competitors coresignal_data) ;;
   let '(competitors, coresignal_data') := cs in
   report <- llm_call (MultiSourcePrompt (company_name self) coresignal_data'
                         apollo_data (model_dump <$> customers)) llm ;;
   ret (report, coresignal_data'))%M.

(** [research_company] (lines 239-282). The three tasks are created
    before [gather] runs them, so each reads [self] as it is on entry; a
    task that fails does not stop the other two. Returns the result dict
    and the researcher as the call leaves it. *)
Definition research_company (self : t) (o : oracle) : M (json * t) :=
  (ra <- attempt (fetch_apollo_data self o) ;;
   rt <- attempt (fetch_tavily_data self o) ;;
   rc <- attempt (fetch_coresignal_data self o) ;;
   fetched <- lift (gather (completion_order o) ra rt rc) ;;
   let '(apollo_data, customers, coresignal_data) := fetched in
   self' <- lift (_set_company_name_from_data self apollo_data coresignal_data) ;;
   rep <- generate_llm_company_report self' apollo_data coresignal_data customers
            (llm_invoke o) ;;
   let '(report, coresignal_data') := rep in
   ret (JObj [("company_name", company_name self');
              ("domain", JStr (domain self'));
              ("report", JStr report);
              ("raw_data", JObj [("apollo_data", apollo_data);
                                 ("tavily_customers", JList (model_dump <$> customers));
                                 ("coresignal_data", coresignal_data')])],
        self'))%M.

End MultiSourceResearcher.

(** ** Delivery sinks *)

Module EmailService.

Record t := mk { email_user : option string; email_password : option string }.

Definition is_digit (c : ascii) : bool :=
  let n := nat_of_ascii c in (48 <=? n)%nat && (n <=? 57)%nat.

(** [__init__] (email_service.py, lines 15-21). [int] raises on a port
    that is not a number; only plain decimal digits are accepted here. *)
Definition __init__ (environ : gmap string string) : result t :=
  let port := match os_getenv environ "SMTP_PORT" with Some p => p | None => "587" end in
  if negb (String.eqb port "") && forallb is_digit (list_ascii_of_string port)
  then Ok (mk (os_getenv environ "EMAIL_USER") (os_getenv environ "EMAIL_PASSWORD"))
  else Raise (Exn ValueError "invalid literal for int() with base 10").

(** [is_configured] (lines 23-25). *)
Definition is_configured (self : t) : bool :=
  negb (unset (email_user self)) && negb (unset (email_password self)).

(** [send_pdf_report] (lines 27-127). [smtp] is the outcome of the [try]
    block that builds the message, attaches the file and talks to the mail
    server; the message itself is not kept. *)
Definition send_pdf_report (self : t) (to_email : string) (smtp : result unit) : json :=
  if negb (is_configured self)
  then JObj [("success", JBool false);
             ("error", JStr "Email service not configured. Contact administrator.")]
  else match smtp with
       | Ok _ => JObj [("success", JBool true);
                       ("message", JStr ("Report sent to " +:+ to_email))]
       | Raise e => JObj [("success", JBool false);
                          ("error", JStr ("Failed to send email: " +:+ exn_msg e))]
       end.

End EmailService.

Module GoogleDriveUploader.

(** [upload_file] (drive_uploader_complete.py, lines 70-131): every
    exception, a missing file included, ends in [None]. [create] is the
    outcome of the Drive API call. *)
Definition upload_file (file_path : string) (create : result json) : M json := fun w =>
  match fs w !! file_path, create with
  | Some _, Ok file => (Ok file, w)
  | _, _ => (Ok JNull, w)
  end.

End GoogleDriveUploader.

(** ** Request handlers *)

Inductive http_response :=
| JSONResponse (content : json)
| FileResponse (path filename : string) (headers : list (string * json))
| HTTPException (status : Z) (detail : string).

(** What the process and its surroundings fix for one request. *)
Record server := {
  environ : gmap string string;
  GOOGLE_DRIVE_AVAILABLE : bool;
  EMAIL_SERVICE_AVAILABLE : bool;
  providers : oracle;
  md_path : string;
  pdf_path : string;
  timestamp : string;
  now_iso : string;
  pandoc : result unit;
  uploader_init : result unit;
  drive_create : result json;
  smtp_session : result unit
}.

Record MultiSourceCompanyResearchRequest := {
  domain : string;
  email : option string;
  return_data : bool;
  upload_to_drive : bool;
  upload_to_drive_folder_id : option string
}.

Record CoreSignalCompanyResearchRequest := {
  cs_website : string;
  cs_email : option string;
  cs_upload_to_drive : bool;
  cs_upload_to_drive_folder_id : option string
}.

Definition failure (error : string) : json :=
  JObj [("success", JBool false); ("error", JStr error)].

(** The path of [d.get("success")] for a result that may be [None]:
    [r and r.get("success")], as a truth value. *)
Definition succeeded (r : json) : bool :=
  truthy r && truthy (field r "success").

(** [d[k]]. *)
Definition py_item (d : json) (k : string) : result json :=
  match d with
  | JObj kvs => match assoc k kvs with
                | Some v => Ok v
                | None => Raise (Exn KeyError k)
                end
  | _ => Raise (type_error "object is not subscriptable")
  end.

Definition is_alnum (c : ascii) : bool :=
  is_lower c || is_upper c || EmailService.is_digit c.

(** [s.isalnum()] on ASCII. *)
Definition isalnum (s : string) : bool :=
  negb (String.eqb s "") && forallb is_alnum (list_ascii_of_string s).

(** The file-name stem of lines 294-296 (776-778): the items of the name
    that are alphanumeric or one of space, dash and underscore, joined,
    spaces then replaced. *)
Definition safe_company_name (company_name : json) : result string :=
  items ← py_iter company_name;
  strs ← mapM (fun c => match c with
                        | JStr s => Ok s
                        | _ => Raise (attribute_error "isalnum")
                        end) items;
  Ok (replace
        (String.concat ""
           (filter (fun c => isalnum c = true \/ c ∈ [" "; "-"; "_"]) strs))
        " " "_").

(** "Handle Google Drive upload if requested" (lines 313-367 and 796-850;
    the two handlers differ in the text for a missing folder). *)
Definition drive_step (sv : server) (requested : bool) (folder_id : option string)
    (no_folder : string) : M json :=
  if requested then
    if negb (GOOGLE_DRIVE_AVAILABLE sv) then
      ret (failure "Google Drive uploader not available. Check drive_uploader_complete.py")
    else if unset folder_id then ret (failure no_folder)
    else
      try_except
        (lift (uploader_init sv) ;;;
         upload_result <- GoogleDriveUploader.upload_file (pdf_path sv) (drive_create sv) ;;
         if truthy upload_result then
           id <- lift (py_get upload_result "id") ;;
           name <- lift (py_get upload_result "name") ;;
           link <- lift (py_get upload_result "webViewLink") ;;
           size <- lift (py_get upload_result "size") ;;
           ret (JObj [("success", JBool true); ("file_id", id); ("file_name", name);
                      ("view_link", link); ("size", size)])
         else ret (failure "Upload failed - no result returned from Google Drive"))%M
        [Exception] (fun e => ret (failure (exn_msg e)))
  else ret JNull.

(** "Handle email sending if requested" (lines 369-397 and 852-880). *)
Definition email_step (sv : server) (email : option string) : M json :=
  match email with
  | Some to_email =>
      if negb (String.eqb to_email "") && EMAIL_SERVICE_AVAILABLE sv then
        try_except
          (email_service <- lift (EmailService.__init__ (environ sv)) ;;
           if EmailService.is_configured email_service
           then ret (EmailService.send_pdf_report email_service to_email (smtp_session sv))
           else ret (failure "Email service not configured"))%M
          [Exception] (fun e => ret (failure ("Email error: " +:+ exn_msg e)))
      else ret JNull
  | None => ret JNull
  end.

(** [try: os.unlink(pdf_path)  except Exception: pass]. *)
Definition cleanup (sv : server) : M unit :=
  try_except (unlink (pdf_path sv)) [Exception] (fun _ => ret tt).

Definition set_if (cond : bool) (k : string) (v : json) (d : list (string * json))
  : list (string * json) :=
  if cond then assoc_set k v d else d.

Definition drive_error_headers (pdf_filename : string) (drive_result : json)
  : list (string * json) :=
  ("Content-Disposition", JStr ("attachment; filename=" +:+ pdf_filename))
  :: (if truthy drive_result && negb (truthy (field drive_result "success"))
      then [("X-Drive-Upload-Error",
             match drive_result with
             | JObj kvs => match assoc "error" kvs with
                           | Some v => v
                           | None => JStr "Unknown error"
                           end
             | _ => JStr "Unknown error"
             end)]
      else []).

(** The three shapes of the answer (lines 401-484 and 884-947). [summary]
    is the dict literal of the e-mail branch without its [email_sent] item,
    [summary_drive] the one of the Drive branch without its
    [google_drive] item; [raw_data] is there when the request asked for
    it. *)
Definition respond (sv : server) (email : option string)
    (summary summary_drive : list (string * json)) (raw_data : option json)
    (pdf_filename : string) (drive_result email_result : json) : M http_response :=
  (if negb (unset email) then
     let response_data :=
       assoc_set "email_sent"
         (if truthy email_result
          then match email_result with
               | JObj kvs => match assoc "success" kvs with
                             | Some v => v
                             | None => JBool false
                             end
               | _ => JBool false
               end
          else JBool false) summary in
     let response_data := set_if (truthy drive_result) "google_drive" drive_result
                            response_data in
     let response_data := set_if (truthy email_result) "email_result" email_result
                            response_data in
     let response_data :=
       match raw_data with
       | Some raw => assoc_set "raw_data" raw response_data
       | None => response_data
       end in
     (if succeeded email_result || succeeded drive_result then cleanup sv else ret tt) ;;;
     ret (JSONResponse (JObj response_data))
   else if succeeded drive_result then
     let response_data := assoc_set "google_drive" drive_result summary_drive in
     let response_data :=
       match raw_data with
       | Some raw => assoc_set "raw_data" raw response_data
       | None => response_data
       end in
     cleanup sv ;;;
     ret (JSONResponse (JObj response_data))
   else
     ret (FileResponse (pdf_path sv) pdf_filename
            (drive_error_headers pdf_filename drive_result)))%M.

(** What one delivery produced. *)
Record delivered := {
  drive_result : json;
  email_result : json;
  answer : http_response
}.

(** Lines 313-484 of [multi_source_research_endpoint]: the sinks, then
    the answer. *)
Definition multi_source_deliver (sv : server) (request : MultiSourceCompanyResearchRequest)
    (company_name : json) (pdf_filename : string) (raw_data : json) : M delivered :=
  (drive_result <- drive_step sv (upload_to_drive request)
                     (upload_to_drive_folder_id request)
                     "Google Drive upload folder ID is not set" ;;
   email_result <- email_step sv (email request) ;;
   let data_sources := JList [JStr "Apollo Organization API"; JStr "Tavily Search API"] in
   let common :=
     [("company_name", company_name); ("domain", JStr (domain request));
      ("pdf_filename", JStr pdf_filename); ("timestamp", JStr (now_iso sv));
      ("data_sources", data_sources)] in
   answer <- respond sv (email request)
               (("message",
                 JStr "Multi-source research completed and PDF generated successfully")
                :: common)
               (("message",
                 JStr "Multi-source research completed and PDF uploaded to Google Drive successfully")
                :: common)
               (if return_data request then Some raw_data else None)
               pdf_filename drive_result email_result ;;
   ret {| drive_result := drive_result; email_result := email_result;
          answer := answer |})%M.

(** Lines 796-947 of [coresignal_generate_pdf_report]. *)
Definition coresignal_deliver (sv : server) (request : CoreSignalCompanyResearchRequest)
    (company_name : json) (pdf_filename : string) : M delivered :=
  (drive_result <- drive_step sv (cs_upload_to_drive request)
                     (cs_upload_to_drive_folder_id request)
                     "Google Drive folder ID is required for upload. Please provide upload_to_drive_folder_id." ;;
   email_result <- email_step sv (cs_email request) ;;
   let tail := [("pdf_filename", JStr pdf_filename); ("company_name", company_name);
                ("generated_at", JStr (now_iso sv))] in
   answer <- respond sv (cs_email request)
               (("message", JStr "PDF generated successfully") :: tail)
               (("message",
                 JStr "PDF generated and uploaded to Google Drive successfully") :: tail)
               None pdf_filename drive_result email_result ;;
   ret {| drive_result := drive_result; email_result := email_result;
          answer := answer |})%M.

(** The two [except] clauses at the end of a handler; [raise HTTPException]
    is the answer the client gets. *)
Definition answer_or_500 (body : M http_response) (what : string)
  : world -> http_response * world := fun w =>
  match body w with
  | (Ok r, w') => (r, w')
  | (Raise e, w') =>
      if isinstance (exn_cls e) CalledProcessError
      then (HTTPException 500 "Error converting to PDF. Make sure pandoc is installed.", w')
      else (HTTPException 500 (what +:+ exn_msg e), w')
  end.

Definition report_text (report : json) : result string :=
  match report with
  | JStr s => Ok s
  | _ => Raise (type_error "write() argument must be str")
  end.

(** [multi_source_research_endpoint] (lines 256-496). *)
Definition multi_source_research_endpoint (sv : server)
    (request : MultiSourceCompanyResearchRequest) : world -> http_response * world :=
  answer_or_500
    (researcher <- lift (MultiSourceResearcher.__init__ (environ sv) (domain request)) ;;
     res <- MultiSourceResearcher.research_company researcher (providers sv) ;;
     let research_result := res.1 in
     report <- lift (py_item research_result "report") ;;
     company_name <- lift (py_item research_result "company_name") ;;
     raw <- lift (py_item research_result "raw_data") ;;
     apollo_data <- lift (py_item raw "apollo_data") ;;
     customers_data <- lift (py_item raw "tavily_customers") ;;
     coresignal_data <- lift (py_item raw "coresignal_data") ;;
     text <- lift (report_text report) ;;
     write_file (md_path sv) (FText text) ;;;
     safe <- lift (safe_company_name company_name) ;;
     let pdf_filename := safe +:+ "_multi_source_report_" +:+ timestamp sv +:+ ".pdf" in
     write_file (pdf_path sv) (FPdf "") ;;;
     lift (pandoc sv) ;;;
     write_file (pdf_path sv) (FPdf text) ;;;
     unlink (md_path sv) ;;;
     d <- multi_source_deliver sv request company_name pdf_filename
            (JObj [("apollo_data", apollo_data); ("tavily_customers", customers_data);
                   ("coresignal_data", coresignal_data)]) ;;
     ret (answer d))%M
    "Error in multi-source research: ".

(** [coresignal_generate_pdf_report] (lines 740-959). *)
Definition coresignal_generate_pdf_report (sv : server)
    (request : CoreSignalCompanyResearchRequest) : world -> http_response * world :=
  answer_or_500
    (let website :=
       if String.prefix "http://" (cs_website request)
          || String.prefix "https://" (cs_website request)
       then cs_website request else "https://" +:+ cs_website request in
     coresignal_api <- lift (CoreSignalMultiSourceAPI.__init__ (environ sv) website) ;;
     api_response <- CoreSignalMultiSourceAPI.company_multi_source_enrich coresignal_api
                       (coresignal_http (providers sv)) ;;
     rep <- CoreSignalMultiSourceAPI.generate_markdown_report_with_llm coresignal_api
              api_response (llm_invoke (providers sv)) ;;
     let '(markdown_report, api_response) := rep in
     write_file (md_path sv) (FText markdown_report) ;;;
     company_name <- lift (py_get_default api_response "company_name"
                             (JStr "Unknown_Company")) ;;
     safe <- lift (safe_company_name company_name) ;;
     let pdf_filename := safe +:+ "_coresignal_report_" +:+ timestamp sv +:+ ".pdf" in
     write_file (pdf_path sv) (FPdf "") ;;;
     lift (pandoc sv) ;;;
     write_file (pdf_path sv) (FPdf markdown_report) ;;;
     unlink (md_path sv) ;;;
     d <- coresignal_deliver sv request company_name pdf_filename ;;
     ret (answer d))%M
    "Error generating PDF report: ".

(** ** Definitions used to state the properties *)

(** The payload shapes on which name resolution does not raise: both
    payloads are objects and Apollo's [organization], when there is one,
    is an object too. *)
Definition well_shaped (apollo_data coresignal_data : json) : Prop :=
  (exists akvs, apollo_data = JObj akvs /\
     (assoc "organization" akvs = None \/
      exists okvs, assoc "organization" akvs = Some (JObj okvs))) /\
  (exists ckvs, coresignal_data = JObj ckvs).

(** The priority order of the name sources. *)
Definition resolved_name (domain : string) (apollo_data coresignal_data : json) : json :=
  if truthy (field (field apollo_data "organization") "name")
  then field (field apollo_data "organization") "name"
  else if truthy (field coresignal_data "company_name")
  then field coresignal_data "company_name"
  else if truthy (field apollo_data "name")
  then field apollo_data "name"
  else JStr (MultiSourceResearcher.fallback_name domain).

(** The name a researcher reports once the payloads are in. *)
Definition canonical_name (self : MultiSourceResearcher.t)
    (apollo_data coresignal_data : json) : result json :=
  match MultiSourceResearcher._set_company_name_from_data self
          apollo_data coresignal_data with
  | Ok self' => Ok (MultiSourceResearcher.company_name self')
  | Raise e => Raise e
  end.

(** The researcher that [__init__] builds when both keys are set. *)
Definition fresh (domain : string) : MultiSourceResearcher.t :=
  MultiSourceResearcher.mk domain (ApolloOrganizationAPI.mk domain)
    (CoreSignalMultiSourceAPI.mk domain
       (replace (replace (replace (replace (replace domain
          "https://" "") "http://" "") "www." "") "." "_") "/" "_"))
    None.

(** The searches in a network log. *)
Definition tavily_queries (log : list request) : list fstring :=
  omap (fun r => match r with TavilySearch q => Some q | _ => None end) log.

(** The outcomes of the three fetches of one research call: the
    exception each provider's fetch raises, if any. *)
Definition provider_failure (self : MultiSourceResearcher.t) (o : oracle)
    (w : world) (p : provider) : option exn :=
  let '(ra, w1) := MultiSourceResearcher.fetch_apollo_data self o w in
  let '(rt, w2) := MultiSourceResearcher.fetch_tavily_data self o w1 in
  let '(rc, w3) := MultiSourceResearcher.fetch_coresignal_data self o w2 in
  match p with
  | Apollo => failure_of ra
  | Tavily => failure_of rt
  | CoreSignal => failure_of rc
  end.

(** The similarity score a competitor is ranked by: a missing or falsy
    score counts as zero. *)
Definition score_or_zero (x : json) : Z :=
  match similarity_key x with
  | Ok k => match numeric k with Some z => z | None => 0%Z end
  | Raise _ => 0%Z
  end.

(** Descending order of score. *)
Definition by_score_desc (a b : json) : Prop :=
  (score_or_zero b <= score_or_zero a)%Z.

(** The competitors list inside the payload that a prompt embeds. *)
Definition embedded_competitors (p : prompt) : json :=
  match p with
  | MultiSourcePrompt _ coresignal_data _ _ => field coresignal_data "competitors"
  | CoreSignalPrompt _ _ _ _ _ api_response => field api_response "competitors"
  end.

(** ** Sample data *)

(** A competitor entry, and a payload with eight of them. *)
Definition competitor (name : string) (similarity : Z) : json :=
  JObj [("company_name", JStr name); ("similarity_score", JNum similarity)].

Definition eight_competitors : list json :=
  [competitor "c30" 30; competitor "c80" 80; competitor "c10" 10; competitor "c60" 60;
   competitor "c50" 50; competitor "c20" 20; competitor "c70" 70; competitor "c40" 40].

Definition sample_payload : json :=
  JObj [("company_name", JStr "Example"); ("competitors", JList eight_competitors)].

Definition sample_oracle : oracle :=
  {| apollo_http := HttpResponse 200 (Some (JObj []));
     coresignal_http := HttpResponse 200 (Some sample_payload);
     tavily_search := fun _ => Ok (JObj [("results", JList [])]);
     llm_invoke := fun _ => Ok "report";
     completion_order := [Apollo; Tavily; CoreSignal] |}.

Definition sample_server : server :=
  {| environ := <["APOLLO_API_KEY" := "a"]> (<["CORESIGNAL_API_KEY" := "c"]>
                  (<["EMAIL_USER" := "reports@example.com"]>
                     (<["EMAIL_PASSWORD" := "secret"]> ∅)));
     GOOGLE_DRIVE_AVAILABLE := true;
     EMAIL_SERVICE_AVAILABLE := true;
     providers := sample_oracle;
     md_path := "/tmp/tmp1.md";
     pdf_path := "/tmp/tmp2.pdf";
     timestamp := "20250101_120000";
     now_iso := "2025-01-01T12:00:00";
     pandoc := Ok tt;
     uploader_init := Ok tt;
     drive_create := Ok (JObj [("id", JStr "f1"); ("name", JStr "report.pdf");
                               ("webViewLink", JStr "https://drive.example/f1")]);
     smtp_session := Ok tt |}.

Definition sample_request (email : option string) (upload : bool)
  : MultiSourceCompanyResearchRequest :=
  {| domain := "example.com"; email := email; return_data := false;
     upload_to_drive := upload; upload_to_drive_folder_id := Some "folder" |}.

Definition sample_cs_request (email : option string) (upload : bool)
  : CoreSignalCompanyResearchRequest :=
  {| cs_website := "example.com"; cs_email := email;
     cs_upload_to_drive := upload; cs_upload_to_drive_folder_id := Some "folder" |}.

(** * Further definitions *)

From Stdlib Require Import DecimalString.

(** ** Characters and strings *)

(** Replacing every occurrence of one character. *)
Fixpoint replace_char (c : ascii) (new : string) (s : string) : string :=
  match s with
  | EmptyString => EmptyString
  | String x s' =>
      if Ascii.eqb c x then new +:+ replace_char c new s'
      else String x (replace_char c new s')
  end.


Definition occurs (c : ascii) (s : string) : Prop :=
  c ∈ list_ascii_of_string s.


(** ** Reading a news text *)

Definition is_heading (p : fpart) : bool :=
  match p with
  | Lit s => String.eqb s "### News Item "
  | Hole _ => false
  end.

(** The number of news items in a news text. *)
Definition news_count (news : fstring) : nat := length (filter (fun p => is_heading p = true) news).

Definition is_ellipsis (p : fpart) : bool :=
  match p with
  | Lit s => String.eqb s "..."
  | Hole _ => false
  end.

(** ** Background handlers and health check *)

Record MultiSourceBackgroundCompanyResearchRequest := {
  bg_website : string;
  bg_email : string
}.

Record BackgroundCompanyResearchRequest := {
  cbg_website : string;
  cbg_email : string
}.

(** [multi_source_research_background] (company_research_fastapi.py,
    lines 201-253): the acknowledgement, and the request with which
    [multi_source_research_endpoint] is started as a detached task. *)
Definition multi_source_research_background (sv : server)
    (request : MultiSourceBackgroundCompanyResearchRequest)
  : http_response * MultiSourceCompanyResearchRequest :=
  let domain :=
    replace (replace (replace (bg_website request) "https://" "") "http://" "")
      "www." "" in
  (JSONResponse
     (JObj [("message",
             JStr "🎉 Multi-source research started! You'll receive an email when it's ready.");
            ("status", JStr "processing");
            ("domain", JStr (bg_website request));
            ("email", JStr (bg_email request));
            ("timestamp", JStr (now_iso sv));
            ("estimated_time", JStr "5-10 minutes")]),
   {| domain := domain;
      email := Some (bg_email request);
      return_data := false;
      upload_to_drive := true;
      upload_to_drive_folder_id :=
        os_getenv (environ sv) "GOOGLE_DRIVE_INTERFACE_FOLDER_ID" |}).

(** [coresignal_generate_pdf_background] (lines 698-737). *)
Definition coresignal_generate_pdf_background (sv : server)
    (request : BackgroundCompanyResearchRequest)
  : http_response * CoreSignalCompanyResearchRequest :=
  (JSONResponse
     (JObj [("message",
             JStr "🎉 Report generation started! You'll receive an email when it's ready.");
            ("status", JStr "processing");
            ("website", JStr (cbg_website request));
            ("email", JStr (cbg_email request));
            ("timestamp", JStr (now_iso sv));
            ("estimated_time", JStr "5-10 minutes")]),
   {| cs_website := cbg_website request;
      cs_email := Some (cbg_email request);
      cs_upload_to_drive := true;
      cs_upload_to_drive_folder_id :=
        os_getenv (environ sv) "GOOGLE_DRIVE_INTERFACE_FOLDER_ID" |}).




(** ** Listing the Drive folder *)

(** One entry of the answer of [list_drive_files] (lines 556-567). *)
Definition file_info (file : json) : result json :=
  id ← py_get file "id";
  name ← py_get file "name";
  mimeType ← py_get file "mimeType";
  size ← py_get file "size";
  createdTime ← py_get file "createdTime";
  modifiedTime ← py_get file "modifiedTime";
  webViewLink ← py_get file "webViewLink";
  webContentLink ← py_get file "webContentLink";
  Ok (JObj [("id", id); ("name", name); ("mimeType", mimeType); ("size", size);
            ("createdTime", createdTime); ("modifiedTime", modifiedTime);
            ("webViewLink", webViewLink); ("webContentLink", webContentLink)]).

(** [list_drive_files] (company_research_fastapi.py, lines 499-587).
    [listing] is the outcome of the Drive API call. An [HTTPException]
    raised inside the [try] block is an exception like any other for the
    last [except] clause; its text is its status and detail. The
    uploader's service is set once the uploader is built, so the check of
    line 525 never fires. *)
Definition list_drive_files (sv : server) (folder_id : option string)
    (listing : result json) : http_response :=
  if negb (GOOGLE_DRIVE_AVAILABLE sv) then
    HTTPException 400
      "Google Drive functionality not available. Check drive_uploader_complete.py and environment variables"
  else
    let body : result json :=
      _ ← uploader_init sv;
      let target_folder_id :=
        if unset folder_id
        then os_getenv (environ sv) "GOOGLE_DRIVE_INTERFACE_FOLDER_ID"
        else folder_id in
      match target_folder_id with
      | Some target =>
          if String.eqb target "" then
            Raise (Exn OtherError
                     "400: No folder ID provided and GOOGLE_DRIVE_FOLDER_ID environment variable is not set")
          else
            results ← listing;
            files ← py_get_default results "files" (JList []);
            match files with
            | JList l =>
                infos ← mapM file_info l;
                Ok (JObj [("folder_id", JStr target);
                          ("file_count", JNum (Z.of_nat (length l)));
                          ("files", JList infos)])
            | _ => Raise (Exn OtherError
                            "500: Failed to retrieve files from Google Drive")
            end
      | None =>
          Raise (Exn OtherError
                   "400: No folder ID provided and GOOGLE_DRIVE_FOLDER_ID environment variable is not set")
      end in
    match body with
    | Ok response_data => JSONResponse response_data
    | Raise e =>
        HTTPException 500 ("Error listing Google Drive files: " +:+ exn_msg e)
    end.

(** [GoogleDriveUploader._authenticate] (drive_uploader_complete.py,
    lines 39-68). [credentials] is the outcome of building the credentials
    and the service. *)
Definition _authenticate (service_account_file : string) (credentials : result unit)
  : M unit :=
  (present <- exists_file service_account_file ;;
   if negb present then
     raise (Exn FileNotFoundError
              ("Service Account file '" +:+ service_account_file +:+ "' not found. "
               +:+ "Please download it from Google Cloud Console."))
   else
     try_except
       (cred_data <- json_load service_account_file ;;
        type <- lift (py_get cred_data "type") ;;
        let not_a_service_account :=
          Exn ValueError ("'" +:+ service_account_file
                          +:+ "' is not a service account file. "
                          +:+ "Please use a service account JSON file.") in
        match type with
        | JStr t =>
            if String.eqb t "service_account" then ret tt
            else raise not_a_service_account
        | _ => raise not_a_service_account
        end)
       [JSONDecodeError; KeyError]
       (fun e => raise (Exn ValueError ("Invalid JSON file: " +:+ exn_msg e))) ;;;
     lift credentials)%M.

(** ** Formatting search hits *)

(** [x or default] for a string that may be missing. *)
Definition or_text (x : option string) (default : string) : string :=
  match x with
  | Some s => if String.eqb s "" then default else s
  | None => default
  end.

(** One line of [format_tavily_results] (tavily_search.py, lines 78-86). *)
Definition format_line (section : string) (r : TavilySearchResult) : string :=
  let summary := or_text (content r) "No summary available." in
  let title := or_text (Some (title_ r)) "No title." in
  let url := or_text (Some (url r)) "No URL." in
  let date :=
    match published_date r with
    | Some d => if String.eqb d "" then "" else " (Published: " +:+ d +:+ ")"
    | None => ""
    end in
  if String.eqb section "news"
  then "- **" +:+ title +:+ "**" +:+ date +:+ ": " +:+ summary
       +:+ " [Source](" +:+ url +:+ ")"
  else "- **" +:+ title +:+ "**: " +:+ summary +:+ " [Source](" +:+ url +:+ ")".

(** [format_tavily_results] (lines 74-90). *)
Definition format_tavily_results (results : list TavilySearchResult) (section : string)
  : string :=
  match results with
  | [] => "No relevant data found"
  | _ => String.concat nl (format_line section <$> results)
  end.

Definition without_date (r : TavilySearchResult) : TavilySearchResult :=
  {| url := url r; title_ := title_ r; score := score r;
     published_date := None; content := content r |}.

(** ** The template report of the CoreSignal client *)

Fixpoint lower (s : string) : string :=
  match s with
  | EmptyString => EmptyString
  | String c s' => String (to_lower c) (lower s')
  end.

(** [s.lower()]: strings only. *)
Definition py_lower (j : json) : result string :=
  match j with
  | JStr s => Ok (lower s)
  | _ => Raise (attribute_error "lower")
  end.

(** [needle in hay] for strings. *)
Fixpoint contains (needle hay : string) : bool :=
  String.prefix needle hay
  || match hay with
     | EmptyString => false
     | String _ hay' => contains needle hay'
     end.

(** [j[0]]. *)
Definition py_first (j : json) : result json :=
  match j with
  | JList (x :: _) => Ok x
  | JList [] => Raise (Exn OtherError "list index out of range")
  | JStr (String c _) => Ok (JStr (String c EmptyString))
  | JStr EmptyString => Raise (Exn OtherError "string index out of range")
  | JObj _ => Raise (Exn KeyError "0")
  | _ => Raise (type_error "object is not subscriptable")
  end.

(** [a + b]: lists and strings concatenate, numbers add ([True] is 1). *)
Definition py_add (a b : json) : result json :=
  match a, b with
  | JList l1, JList l2 => Ok (JList (l1 ++ l2)%list)
  | JStr s1, JStr s2 => Ok (JStr (s1 +:+ s2))
  | _, _ =>
      match numeric a, numeric b with
      | Some x, Some y => Ok (JNum (x + y))
      | _, _ => Raise (type_error "unsupported operand type(s) for +")
      end
  end.

(** A comma before every group of three digits, on the digits in reverse;
    [k] digits stand in the current group. *)
Fixpoint commas_rev (k : nat) (digits : list ascii) : list ascii :=
  match digits with
  | [] => []
  | c :: rest =>
      match k with
      | 3%nat => ","%char :: c :: commas_rev 1 rest
      | _ => c :: commas_rev (S k) rest
      end
  end.

Definition decimal (n : N) : list ascii :=
  list_ascii_of_string (NilEmpty.string_of_uint (N.to_uint n)).

(** [format(z, ",")]. *)
Definition thousands (z : Z) : string :=
  (if (z <? 0)%Z then "-" else "")
  +:+ string_of_list_ascii (rev (commas_rev 0 (rev (decimal (Z.abs_N z))))).

(** The hole [{v:,}] of an f-string: numbers only. *)
Definition format_thousands (v : json) : result fpart :=
  match v with
  | JNum z => Ok (Lit (thousands z))
  | JBool b => Ok (Lit (thousands (if b then 1 else 0)))
  | JStr _ => Raise (Exn ValueError "Cannot specify ',' with 's'.")
  | _ => Raise (type_error "unsupported format string passed to __format__")
  end.

Module TemplateReport.

(** The end of a line that markdown breaks: two spaces and the newline. *)
Definition br : string := "  " +:+ nl.

Definition dq : string := String (ascii_of_nat 34) EmptyString.

(** [json.dumps({"timestamp": "auto-generated"})]. *)
Definition stamp : string :=
  "{" +:+ dq +:+ "timestamp" +:+ dq +:+ ": " +:+ dq +:+ "auto-generated" +:+ dq +:+ "}".

(** Lines 103-123. *)
Definition header (api_response : json) : result fstring :=
  company_name ← py_get_default api_response "company_name" (JStr "Unknown Company");
  industry ← py_get_default api_response "industry" (JStr "Not Found");
  type ← py_get_default api_response "type" (JStr "Not Found");
  status ← py_get_default api_response "status" (JObj []);
  status_value ← py_get_default status "value" (JStr "Not Found");
  description ← py_get_default api_response "description" (JStr "Not Found");
  hq_location ← py_get_default api_response "hq_location" (JStr "Not Found");
  hq_full_address ← py_get_default api_response "hq_full_address" (JStr "Not Found");
  Ok [Lit "# "; Hole company_name;
      Lit (" - Company Research Report" +:+ nl +:+ nl
           +:+ "## Company Industry Type & Description" +:+ nl +:+ nl
           +:+ "**Industry:** "); Hole industry;
      Lit (br +:+ "**Company Type:** "); Hole type;
      Lit (br +:+ "**Status:** "); Hole status_value;
      Lit (br +:+ nl +:+ "### Description" +:+ nl); Hole description;
      Lit (nl +:+ nl +:+ "## Contact Details" +:+ nl +:+ nl
           +:+ "### Address" +:+ nl +:+ "**Headquarters:** "); Hole hq_location;
      Lit (br +:+ "**Full Address:** "); Hole hq_full_address;
      Lit (br +:+ nl +:+ "### CEO Profile" +:+ nl)].

Definition is_chief (job_title : string) : bool :=
  existsb (fun title => contains title job_title)
    ["ceo"; "chief executive officer"; "founder"].

(** The loop of lines 128-143: the first employee whose title names a
    chief executive or a founder, then [break]. *)
Fixpoint ceo_profile (employees : list json) : result fstring :=
  match employees with
  | [] => Ok [Lit ("CEO information not found." +:+ nl)]
  | employee :: rest =>
      job_title ← (py_get_default employee "job_title" (JStr "") ≫= py_lower);
      if is_chief job_title then
        full_name ← py_get_default employee "full_name" (JStr "Not Found");
        title ← py_get_default employee "job_title" (JStr "Not Found");
        linkedin_url ← py_get_default employee "linkedin_url" (JStr "Not Found");
        job_start_date ← py_get_default employee "job_start_date" (JStr "Not Found");
        Ok [Lit "**Name:** "; Hole full_name;
            Lit (br +:+ "**Title:** "); Hole title;
            Lit (br +:+ "**LinkedIn:** "); Hole linkedin_url;
            Lit (br +:+ "**Start Date:** "); Hole job_start_date; Lit br]
      else ceo_profile rest
  end.

(** Lines 145-159. *)
Definition presence (api_response : json) : result fstring :=
  website ← py_get_default api_response "website" (JStr "Not Found");
  linkedin_url ← py_get_default api_response "linkedin_url" (JStr "Not Found");
  followers ← (py_get_default api_response "followers_count_linkedin" (JStr "Not Found")
               ≫= format_thousands);
  employees_count ← py_get_default api_response "employees_count" (JStr "Not Found");
  size_range ← py_get_default api_response "size_range" (JStr "Not Found");
  Ok [Lit (nl +:+ nl +:+ "## Website and LinkedIn Page" +:+ nl +:+ nl
           +:+ "**Website:** "); Hole website;
      Lit (br +:+ "**LinkedIn Company Page:** "); Hole linkedin_url;
      Lit (br +:+ "**LinkedIn Followers:** "); followers;
      Lit (" followers" +:+ br +:+ nl +:+ "## Employee Count" +:+ nl +:+ nl
           +:+ "**Current Employee Count:** "); Hole employees_count;
      Lit (br +:+ "**Size Range:** "); Hole size_range;
      Lit (br +:+ nl +:+ "### Geographic Distribution" +:+ nl)].

Definition country_line (country_data : json) : result fstring :=
  country ← py_get_default country_data "country" (JStr "Unknown");
  employee_count ← py_get_default country_data "employee_count" (JNum 0);
  Ok [Lit "- **"; Hole country; Lit ":** "; Hole employee_count;
      Lit (" employees" +:+ nl)].

(** A loop that appends what [line] gives for each item. *)
Definition for_each (line : json -> result fstring) (items : list json)
  : result fstring :=
  match mapM line items with
  | Ok ls => Ok (mjoin ls)
  | Raise e => Raise e
  end.

(** Lines 161-169. *)
Definition geography (api_response : json) : result fstring :=
  employee_history ← py_get_default api_response "employees_count_history" (JList []);
  if truthy employee_history then
    latest_data ← py_first employee_history;
    employees_by_country ← py_get_default latest_data "employees_count_by_country"
                             (JList []);
    countries ← py_iter employees_by_country;
    for_each country_line countries
  else Ok [Lit ("Geographic distribution data not available." +:+ nl)].

(** Lines 171-194. *)
Definition funding (api_response : json) : result fstring :=
  funding_info ← py_get_default api_response "funding_info" (JObj []);
  body ← (if truthy funding_info then
            total_amount ← py_get_default funding_info "total_amount" (JStr "Not Found");
            type ← py_get_default funding_info "type" (JStr "Not Found");
            rounds_count ← py_get_default funding_info "rounds_count" (JStr "Not Found");
            Ok [Lit "**Total Funding:** "; Hole total_amount; Lit br;
                Lit "**Funding Type:** "; Hole type; Lit br;
                Lit "**Number of Rounds:** "; Hole rounds_count; Lit br]
          else
            status ← py_get_default api_response "status" (JObj []);
            status_comment ← (py_get_default status "comment" (JStr "") ≫= py_lower);
            Ok [Lit (if contains "acquired" status_comment
                     then "**Status:** Acquired" +:+ br
                     else "Funding information not available in current data source."
                          +:+ nl)]);
  Ok (Lit (nl +:+ nl +:+ "## Financing/Funding & Type" +:+ nl +:+ nl) :: body).

(** One round of the loop of lines 205-216. *)
Definition news_item (i : nat) (update : json) : result fstring :=
  date ← py_get_default update "date" (JStr "No Date");
  summary ← (py_get_default update "description" (JStr "No description available")
             ≫= py_slice 200);
  n ← (py_get_default update "description" (JStr "") ≫= py_len);
  reactions ← py_get update "reactions_count";
  comments ← py_get update "comments_count";
  Ok (([Lit "### News Item "; Hole (JNum (Z.of_nat i)); Lit nl;
        Lit "**Date:** "; Hole date; Lit br;
        Lit ("**Source:** LinkedIn Company Updates" +:+ br);
        Lit "**Summary:** "; Hole summary;
        Lit (if (200 <? n)%nat then "..." else ""); Lit br]
       ++ (if truthy reactions
           then [Lit "**Engagement:** "; Hole reactions; Lit " reactions"] else [])
       ++ (if truthy comments
           then [Lit ", "; Hole comments; Lit " comments"] else [])
       ++ [Lit (nl +:+ nl)])%list).

Fixpoint news_items (i : nat) (updates : list json) : result fstring :=
  match updates with
  | [] => Ok []
  | update :: rest =>
      item ← news_item i update;
      more ← news_items (S i) rest;
      Ok (item ++ more)%list
  end.

(** Lines 196-218. *)
Definition news (api_response : json) : result fstring :=
  company_updates ← py_get_default api_response "company_updates" (JList []);
  body ← (if truthy company_updates then
            first3 ← py_slice 3 company_updates;
            items ← py_iter first3;
            news_items 1 items
          else Ok [Lit ("No recent news items found." +:+ nl +:+ nl)]);
  Ok (Lit (nl +:+ nl +:+ "## 3 Recent News Items" +:+ nl +:+ nl) :: body).

Definition customer_line (customer : json) : result fstring :=
  name ← py_get_default customer "name" (JStr "Unknown Customer");
  industry ← py_get customer "industry";
  website ← py_get customer "website";
  Ok (([Lit "- **"; Hole name; Lit "**"]
       ++ (if truthy industry then [Lit " - "; Hole industry] else [])
       ++ (if truthy website then [Lit " - "; Hole website] else [])
       ++ [Lit nl])%list).

(** Lines 220-238. *)
Definition customers (api_response : json) : result fstring :=
  customers ← py_get_default api_response "customers" (JList []);
  enterprise_customers ← py_get_default api_response "enterprise_customers" (JList []);
  body ← (if truthy customers || truthy enterprise_customers then
            all_customers ← py_add customers enterprise_customers;
            first5 ← py_slice 5 all_customers;
            items ← py_iter first5;
            for_each customer_line items
          else Ok [Lit ("Enterprise customer information not available in current data source."
                        +:+ nl)]);
  Ok (Lit ("## Enterprise Customers" +:+ nl +:+ nl) :: body).

Definition competitor_block (competitor : json) : result fstring :=
  name ← py_get_default competitor "name" (JStr "Unknown Competitor");
  description ← py_get competitor "description";
  website ← py_get competitor "website";
  industry ← py_get competitor "industry";
  Ok (([Lit "### "; Hole name; Lit nl]
       ++ (if truthy description then [Hole description; Lit nl] else [])
       ++ (if truthy website then [Lit "**Website:** "; Hole website; Lit br] else [])
       ++ (if truthy industry then [Lit "**Industry:** "; Hole industry; Lit br] else [])
       ++ [Lit nl])%list).

Definition keyword_line (keyword : json) : result fstring :=
  lowered ← py_lower keyword;
  Ok (if existsb (fun term => contains term lowered)
           ["software"; "technology"; "platform"; "solution"]
      then [Lit "- "; Hole keyword; Lit nl] else []).

(** Lines 240-272. *)
Definition competition (api_response : json) : result fstring :=
  competitors ← py_get_default api_response "competitors" (JList []);
  competition ← py_get_default api_response "competition" (JList []);
  body ← (if truthy competitors || truthy competition then
            all_competitors ← py_add competitors competition;
            first5 ← py_slice 5 all_competitors;
            items ← py_iter first5;
            for_each competitor_block items
          else
            keywords ← py_get_default api_response "categories_and_keywords" (JList []);
            first5 ← py_slice 5 keywords;
            items ← py_iter first5;
            lines ← for_each keyword_line items;
            Ok (Lit ("Direct competitor information not available. Based on industry keywords, potential competitors may include companies in:"
                     +:+ nl) :: lines));
  Ok (Lit (nl +:+ nl +:+ "## Competition & Basic Description" +:+ nl +:+ nl) :: body).

(** Lines 274-283. *)
Definition footer (api_response : json) : result fstring :=
  last_updated_at ← py_get_default api_response "last_updated_at" (JStr "Not Found");
  Ok [Lit (nl +:+ nl +:+ "---" +:+ nl +:+ nl
           +:+ "**Data Source:** CoreSignal Multi-Source API" +:+ br
           +:+ "**Last Updated:** "); Hole last_updated_at;
      Lit (br +:+ "**Report Generated:** "); Lit stamp;
      Lit (nl +:+ nl
           +:+ "*This report was generated automatically from available data sources. Some information may be limited based on data availability.*"
           +:+ nl)].

(** [generate_markdown_report] (coresignal_multisource_api.py, lines
    99-285). *)
Definition generate_markdown_report (api_response : json) : result fstring :=
  h ← header api_response;
  employees ← (py_get_default api_response "employees" (JList []) ≫= py_iter);
  ceo ← ceo_profile employees;
  p ← presence api_response;
  g ← geography api_response;
  f ← funding api_response;
  n ← news api_response;
  c ← customers api_response;
  k ← competition api_response;
  t ← footer api_response;
  Ok (h ++ ceo ++ p ++ g ++ f ++ n ++ c ++ k ++ t)%list.

End TemplateReport.

(** ** A sample run *)

(** What the research call for "example.com" gives on an empty world with
    the sample providers. *)
Definition sample_run : result (json * MultiSourceResearcher.t) * world :=
  Eval vm_compute in
    MultiSourceResearcher.research_company (fresh "example.com") sample_oracle
      (World ∅ [] []).

Definition sample_res : json :=
  Eval vm_compute in match sample_run.1 with Ok (r, _) => r | Raise _ => JNull end.

Definition sample_self : MultiSourceResearcher.t :=
  Eval vm_compute in match sample_run.1 with Ok (_, s) => s | Raise _ => fresh "" end.

Definition sample_world : world := Eval vm_compute in sample_run.2.

(** * Properties *)

(** ** Canonical company name *)

Example replace_leftmost : replace "aaa" "aa" "b" = "ba".
Proof. reflexivity. Qed.

Example replace_every : replace "abcabc" "bc" "XYZ" = "aXYZaXYZ".
Proof. reflexivity. Qed.

Example title_after_digit : title "3com.io" = "3Com.Io".
Proof. reflexivity. Qed.

Example fallback_example :
  MultiSourceResearcher.fallback_name "example.com" = "Example".
Proof. reflexivity. Qed.

Example fallback_www :
  MultiSourceResearcher.fallback_name "www.acme-corp.com" = "Acme-Corp".
Proof. reflexivity. Qed.

Example fallback_upper_case :
  MultiSourceResearcher.fallback_name "WWW.FOO.COM" = "Www.Foo.Com".
Proof. reflexivity. Qed.

Lemma title_from_length b s : String.length (title_from b s) = String.length s.
Proof.
  revert b. induction s as [|c s IH]; intros b; simpl; [reflexivity|].
  destruct (is_lower c); [|destruct (is_upper c)]; simpl; by rewrite IH.
Qed.

Lemma title_empty_iff s : title s = "" <-> s = "".
Proof.
  split; [|by intros ->].
  intros H. pose proof (title_from_length false s) as Hl.
  unfold title in H. rewrite H in Hl. by destruct s.
Qed.

Lemma fallback_name_empty_iff domain :
  MultiSourceResearcher.fallback_name domain = ""
  <-> replace (replace domain ".com" "") "www." "" = "".
Proof. apply title_empty_iff. Qed.

(** C2 (as amended). For every researcher whose name is not yet set and
    every pair of provider payloads that are objects (Apollo's
    [organization], when present, being an object), the canonical name is
    Apollo's [organization.name] when that is present and truthy, else
    CoreSignal's [company_name] when truthy, else Apollo's top-level [name]
    when truthy, else the fallback: the domain with ".com" and "www."
    removed, title-cased. The fallback is empty exactly when nothing is
    left of the domain, and it is "Example" for "example.com". *)
Theorem company_name_priority (self : MultiSourceResearcher.t)
    (apollo_data coresignal_data : json) :
  MultiSourceResearcher._company_name self = None ->
  well_shaped apollo_data coresignal_data ->
  canonical_name self apollo_data coresignal_data
    = Ok (resolved_name (MultiSourceResearcher.domain self)
            apollo_data coresignal_data)
  /\ (MultiSourceResearcher.fallback_name (MultiSourceResearcher.domain self) = ""
      <-> replace (replace (MultiSourceResearcher.domain self) ".com" "") "www." "" = "")
  /\ canonical_name (fresh "example.com") (JObj []) (JObj []) = Ok (JStr "Example").
Proof.
  intros Hnone [(akvs & -> & Horg) (ckvs & ->)].
  split; [|split; [apply fallback_name_empty_iff | reflexivity]].
  unfold canonical_name, resolved_name,
    MultiSourceResearcher._set_company_name_from_data,
    MultiSourceResearcher.company_name, MultiSourceResearcher.set_name, field.
  destruct self as [d a c n]; simpl in Hnone; subst n.
  assert (Hnil : forall kvs, truthy (JObj kvs) = false -> kvs = [])
    by (by intros [|??]).
  destruct (truthy (JObj akvs)) eqn:Ha, (truthy (JObj ckvs)) eqn:Hc;
    try (apply Hnil in Ha; subst akvs); try (apply Hnil in Hc; subst ckvs);
    cbn -[assoc]; try rewrite Ha; try rewrite Hc;
    try (destruct Horg as [Horg | (okvs & Horg)]; rewrite Horg);
    cbn -[assoc];
    repeat (case_match; cbn -[assoc] in *; simplify_eq; try reflexivity;
            try congruence).
Qed.

Lemma company_name_priority_witness :
  canonical_name (fresh "acme.com")
    (JObj [("organization", JObj [("name", JStr "Acme")]); ("name", JStr "acme")])
    (JObj [("company_name", JStr "ACME Inc")])
  = Ok (resolved_name "acme.com"
          (JObj [("organization", JObj [("name", JStr "Acme")]); ("name", JStr "acme")])
          (JObj [("company_name", JStr "ACME Inc")])).
Proof.
  refine (proj1 (company_name_priority (fresh "acme.com") _ _ eq_refl _)).
  split; [eexists; split; [reflexivity|right; eexists; reflexivity]
         | eexists; reflexivity].
Defined.

(** C2 (as stated) fails: for the domain ".com" and payloads without any
    name the canonical name is the empty string, and an [organization.name]
    that is present but empty is passed over for CoreSignal's name. *)
Lemma company_name_counterexample :
  canonical_name (fresh ".com") (JObj []) (JObj []) = Ok (JStr "")
  /\ canonical_name (fresh "acme.com")
       (JObj [("organization", JObj [("name", JStr "")])])
       (JObj [("company_name", JStr "Acme Inc")])
     = Ok (JStr "Acme Inc").
Proof. split; reflexivity. Qed.

(** ** The orchestrator: what a research call does to the logs *)

Lemma research_company_unfold self o w :
  MultiSourceResearcher.research_company self o w =
  let '(ra, w1) := MultiSourceResearcher.fetch_apollo_data self o w in
  let '(rt, w2) := MultiSourceResearcher.fetch_tavily_data self o w1 in
  let '(rc, w3) := MultiSourceResearcher.fetch_coresignal_data self o w2 in
  match gather (completion_order o) ra rt rc with
  | Raise e => (Raise e, w3)
  | Ok (apollo_data, customers, coresignal_data) =>
      match MultiSourceResearcher._set_company_name_from_data self
              apollo_data coresignal_data with
      | Raise e => (Raise e, w3)
      | Ok self' =>
          match MultiSourceResearcher.generate_llm_company_report self'
                  apollo_data coresignal_data customers (llm_invoke o) w3 with
          | (Raise e, w4) => (Raise e, w4)
          | (Ok (report, coresignal_data'), w4) =>
              (Ok (JObj [("company_name", MultiSourceResearcher.company_name self');
                         ("domain", JStr (MultiSourceResearcher.domain self'));
                         ("report", JStr report);
                         ("raw_data",
                          JObj [("apollo_data", apollo_data);
                                ("tavily_customers", JList (model_dump <$> customers));
                                ("coresignal_data", coresignal_data')])],
                   self'), w4)
          end
      end
  end.
Proof.
  unfold MultiSourceResearcher.research_company, bind, attempt, lift, ret.
  destruct (MultiSourceResearcher.fetch_apollo_data self o w) as [ra w1].
  destruct (MultiSourceResearcher.fetch_tavily_data self o w1) as [rt w2].
  destruct (MultiSourceResearcher.fetch_coresignal_data self o w2) as [rc w3].
  destruct (gather (completion_order o) ra rt rc) as [[[a t] c]|e]; [|reflexivity].
  destruct (MultiSourceResearcher._set_company_name_from_data self a c); [|reflexivity].
  destruct (MultiSourceResearcher.generate_llm_company_report _ _ _ _ _ _)
    as [[[report c']|e] w4]; reflexivity.
Qed.

Lemma init_fresh environ domain self :
  MultiSourceResearcher.__init__ environ domain = Ok self -> self = fresh domain.
Proof.
  unfold MultiSourceResearcher.__init__, ApolloOrganizationAPI.__init__,
    CoreSignalMultiSourceAPI.__init__.
  repeat case_match; simpl; intros; by simplify_eq.
Qed.

(** The name in the result dict is the canonical name of the gathered
    payloads. *)
Lemma research_result_name self o w res self' w' :
  MultiSourceResearcher.research_company self o w = (Ok (res, self'), w') ->
  exists apollo_data coresignal_data,
    canonical_name self apollo_data coresignal_data = Ok (field res "company_name")
    /\ field (field res "raw_data") "apollo_data" = apollo_data.
Proof.
  rewrite research_company_unfold.
  destruct (MultiSourceResearcher.fetch_apollo_data self o w) as [ra w1].
  destruct (MultiSourceResearcher.fetch_tavily_data self o w1) as [rt w2].
  destruct (MultiSourceResearcher.fetch_coresignal_data self o w2) as [rc w3].
  destruct (gather (completion_order o) ra rt rc) as [[[a t] c]|e]; [|done].
  destruct (MultiSourceResearcher._set_company_name_from_data self a c)
    as [self1|e] eqn:E; [|done].
  destruct (MultiSourceResearcher.generate_llm_company_report _ _ _ _ _ _)
    as [[[report c']|e] w4]; [|done].
  intros [= <- <- <-]. exists a, c. unfold canonical_name. by rewrite E.
Qed.

(** ** The provider clients, case by case *)

Lemma apollo_fresh_call self http w :
  ApolloOrganizationAPI.fresh_call self http w =
  let w1 := sent (ApolloGet (ApolloOrganizationAPI.domain self)) w in
  match http with
  | HttpFail e => (Raise e, w1)
  | HttpResponse _ None => (Raise (Exn JSONDecodeError "response body"), w1)
  | HttpResponse _ (Some j) =>
      (Ok j, with_fs (insert (ApolloOrganizationAPI.file_path self) (FJson j)) w1)
  end.
Proof. destruct http as [e|st [j|]]; reflexivity. Qed.

Lemma apollo_fetch_cases self http w :
  ApolloOrganizationAPI.organization_enrichment_api self http w =
  match fs w !! ApolloOrganizationAPI.file_path self with
  | Some (FJson j) => (Ok j, w)
  | Some FUndecodable =>
      (Raise (Exn UnicodeDecodeError (ApolloOrganizationAPI.file_path self)), w)
  | _ => ApolloOrganizationAPI.fresh_call self http w
  end.
Proof.
  unfold ApolloOrganizationAPI.organization_enrichment_api, bind, exists_file,
    try_except, json_load, ret.
  destruct (fs w !! ApolloOrganizationAPI.file_path self) as [[]|] eqn:E;
    rewrite ?E; simpl; rewrite ?E; reflexivity.
Qed.

Lemma coresignal_fresh_call self http w :
  CoreSignalMultiSourceAPI.fresh_call self http w =
  let w1 := sent (CoreSignalGet (CoreSignalMultiSourceAPI.website self)) w in
  match http with
  | HttpFail e => (Raise e, w1)
  | HttpResponse st b =>
      if ((400 <=? st) && (st <? 600))%Z then (Raise (Exn HTTPError "bad status"), w1)
      else match b with
           | None => (Raise (Exn JSONDecodeError "response body"), w1)
           | Some j =>
               (Ok j, with_fs (insert (CoreSignalMultiSourceAPI.file_path self)
                                 (FJson j)) w1)
           end
  end.
Proof.
  unfold CoreSignalMultiSourceAPI.fresh_call, try_except, bind, requests_get,
    raise_for_status, response_json, json_dump, raise, ret, send.
  destruct http as [e|st [j|]]; simpl;
    try destruct ((400 <=? st) && (st <? 600))%Z; reflexivity.
Qed.

Lemma coresignal_fetch_cases self http w :
  CoreSignalMultiSourceAPI.company_multi_source_enrich self http w =
  match fs w !! CoreSignalMultiSourceAPI.file_path self with
  | Some (FJson j) => (Ok j, w)
  | Some FUndecodable =>
      (Raise (Exn UnicodeDecodeError (CoreSignalMultiSourceAPI.file_path self)), w)
  | _ => CoreSignalMultiSourceAPI.fresh_call self http w
  end.
Proof.
  unfold CoreSignalMultiSourceAPI.company_multi_source_enrich, bind, exists_file,
    try_except, json_load, ret.
  destruct (fs w !! CoreSignalMultiSourceAPI.file_path self) as [[]|] eqn:E;
    rewrite ?E; simpl; rewrite ?E; reflexivity.
Qed.

Lemma apollo_cache_hit self http w j :
  fs w !! ApolloOrganizationAPI.file_path self = Some (FJson j) ->
  ApolloOrganizationAPI.organization_enrichment_api self http w = (Ok j, w).
Proof. intros H. by rewrite apollo_fetch_cases, H. Qed.

Lemma coresignal_cache_hit self http w j :
  fs w !! CoreSignalMultiSourceAPI.file_path self = Some (FJson j) ->
  CoreSignalMultiSourceAPI.company_multi_source_enrich self http w = (Ok j, w).
Proof. intros H. by rewrite coresignal_fetch_cases, H. Qed.

Lemma apollo_fetch_warms self http w j w' :
  ApolloOrganizationAPI.organization_enrichment_api self http w = (Ok j, w') ->
  fs w' !! ApolloOrganizationAPI.file_path self = Some (FJson j).
Proof.
  rewrite apollo_fetch_cases, apollo_fresh_call.
  destruct (fs w !! ApolloOrganizationAPI.file_path self) as [[]|] eqn:E,
    http as [e|st [b|]]; simpl; intros; simplify_eq; try done;
    apply lookup_insert_eq.
Qed.

Lemma coresignal_fetch_warms self http w j w' :
  CoreSignalMultiSourceAPI.company_multi_source_enrich self http w = (Ok j, w') ->
  fs w' !! CoreSignalMultiSourceAPI.file_path self = Some (FJson j).
Proof.
  rewrite coresignal_fetch_cases, coresignal_fresh_call.
  destruct (fs w !! CoreSignalMultiSourceAPI.file_path self) as [[]|] eqn:E,
    http as [e|st [b|]]; simpl; try destruct ((400 <=? st) && (st <? 600))%Z;
    intros; simplify_eq; try done; apply lookup_insert_eq.
Qed.

Lemma tavily_fetch_world name search w :
  (get_major_customers_async name search w).2
  = sent (TavilySearch (customers_query name)) w.
Proof.
  unfold get_major_customers_async, bind, send, lift.
  repeat case_match; simplify_eq; reflexivity.
Qed.

(** C4 (as amended). Once the Apollo client, or the CoreSignal client, has
    fetched a payload, a later fetch by that client returns the same
    payload and leaves the world as it is: no request is sent. The Tavily
    search has no cache: every call sends one search. *)
Theorem warm_cache_no_network
    (apollo : ApolloOrganizationAPI.t) (coresignal : CoreSignalMultiSourceAPI.t)
    (ha hc ha' hc' : http_outcome) (w wa wc : world) (ja jc : json) :
  ApolloOrganizationAPI.organization_enrichment_api apollo ha w = (Ok ja, wa) ->
  CoreSignalMultiSourceAPI.company_multi_source_enrich coresignal hc w = (Ok jc, wc) ->
  ApolloOrganizationAPI.organization_enrichment_api apollo ha' wa = (Ok ja, wa)
  /\ CoreSignalMultiSourceAPI.company_multi_source_enrich coresignal hc' wc = (Ok jc, wc)
  /\ forall name search w',
       net_log (get_major_customers_async name search w').2
       = (net_log w' ++ [TavilySearch (customers_query name)])%list.
Proof.
  intros Ha Hc. split; [|split].
  - eapply apollo_cache_hit, apollo_fetch_warms, Ha.
  - eapply coresignal_cache_hit, coresignal_fetch_warms, Hc.
  - intros. by rewrite tavily_fetch_world.
Qed.

Lemma warm_cache_no_network_witness :
  let apollo := ApolloOrganizationAPI.mk "example.com" in
  let coresignal := CoreSignalMultiSourceAPI.mk "example.com" "example_com" in
  let ok := HttpResponse 200 (Some (JObj [("company_name", JStr "Example")])) in
  let w := World ∅ [] [] in
  let wa := (ApolloOrganizationAPI.organization_enrichment_api apollo ok w).2 in
  ApolloOrganizationAPI.organization_enrichment_api apollo (HttpFail (Exn ConnectionError "down")) wa
  = (Ok (JObj [("company_name", JStr "Example")]), wa).
Proof.
  intros apollo coresignal ok w wa.
  exact (proj1 (warm_cache_no_network apollo coresignal ok ok
                  (HttpFail (Exn ConnectionError "down")) ok w wa
                  (CoreSignalMultiSourceAPI.company_multi_source_enrich coresignal ok w).2
                  _ _ eq_refl eq_refl)).
Defined.

(** C4 (as stated) fails for the web search: after a first research call
    has filled both caches, a second call for the same domain sends one
    request, the Tavily search. *)
Lemma warm_cache_counterexample :
  let o := {| apollo_http := HttpResponse 200 (Some (JObj [("name", JStr "Example")]));
              coresignal_http := HttpResponse 200 (Some (JObj []));
              tavily_search := fun _ => Ok (JObj [("results", JList [])]);
              llm_invoke := fun _ => Ok "report";
              completion_order := [Apollo; Tavily; CoreSignal] |} in
  let first := MultiSourceResearcher.research_company (fresh "example.com") o
                 (World ∅ [] []) in
  let second := MultiSourceResearcher.research_company (fresh "example.com") o
                  (World (fs first.2) [] []) in
  is_ok first.1 = true /\ is_ok second.1 = true
  /\ net_log second.2 = [TavilySearch (customers_query (JStr "Example"))].
Proof. vm_compute. done. Qed.

(** C7. With a cold cache and an HTTP 401 answer whose body is the JSON
    error object, the Apollo client returns that error object as its result
    and stores it as the cached response; the CoreSignal client, given the
    same answer, raises [HTTPError] and stores nothing. *)
Theorem apollo_returns_error_payload :
  let payload := JObj [("error", JStr "Invalid access credentials.")] in
  let http := HttpResponse 401 (Some payload) in
  let apollo := ApolloOrganizationAPI.mk "example.com" in
  let coresignal := CoreSignalMultiSourceAPI.mk "example.com" "example_com" in
  let cold := World ∅ [] [] in
  (ApolloOrganizationAPI.organization_enrichment_api apollo http cold).1 = Ok payload
  /\ fs (ApolloOrganizationAPI.organization_enrichment_api apollo http cold).2
       !! ApolloOrganizationAPI.file_path apollo = Some (FJson payload)
  /\ (CoreSignalMultiSourceAPI.company_multi_source_enrich coresignal http cold).1
     = Raise (Exn HTTPError "bad status")
  /\ fs (CoreSignalMultiSourceAPI.company_multi_source_enrich coresignal http cold).2
     = ∅.
Proof. vm_compute. done. Qed.

(** The Apollo client never looks at the status: whatever it is, a JSON
    body is the result. *)
Lemma apollo_ignores_status self st j w :
  fs w !! ApolloOrganizationAPI.file_path self = None ->
  (ApolloOrganizationAPI.organization_enrichment_api self
     (HttpResponse st (Some j)) w).1 = Ok j.
Proof. intros H. by rewrite apollo_fetch_cases, H. Qed.





(** ** Logs across one research call *)

Lemma tavily_queries_app l1 l2 :
  tavily_queries (l1 ++ l2) = (tavily_queries l1 ++ tavily_queries l2)%list.
Proof. apply omap_app. Qed.

Lemma apollo_fetch_frame self http w :
  let w' := (ApolloOrganizationAPI.organization_enrichment_api self http w).2 in
  tavily_queries (net_log w') = tavily_queries (net_log w)
  /\ llm_log w' = llm_log w.
Proof.
  rewrite apollo_fetch_cases, apollo_fresh_call.
  destruct (fs w !! ApolloOrganizationAPI.file_path self) as [[]|],
    http as [e|st [b|]]; simpl;
    rewrite ?tavily_queries_app, ?app_nil_r; done.
Qed.

Lemma coresignal_fetch_frame self http w :
  let w' := (CoreSignalMultiSourceAPI.company_multi_source_enrich self http w).2 in
  tavily_queries (net_log w') = tavily_queries (net_log w)
  /\ llm_log w' = llm_log w.
Proof.
  rewrite coresignal_fetch_cases, coresignal_fresh_call.
  destruct (fs w !! CoreSignalMultiSourceAPI.file_path self) as [[]|],
    http as [e|st [b|]]; simpl; try destruct ((400 <=? st) && (st <? 600))%Z; simpl;
    rewrite ?tavily_queries_app, ?app_nil_r; done.
Qed.

Lemma generate_llm_company_report_net self a c cust llm w :
  net_log (MultiSourceResearcher.generate_llm_company_report self a c cust llm w).2
  = net_log w.
Proof.
  unfold MultiSourceResearcher.generate_llm_company_report, bind, lift, llm_call, ret.
  repeat case_match; simplify_eq; reflexivity.
Qed.

(** The queries sent by one research call, whatever its outcome. *)
Lemma research_company_queries self o w :
  tavily_queries (net_log (MultiSourceResearcher.research_company self o w).2)
  = (tavily_queries (net_log w)
     ++ [customers_query (MultiSourceResearcher.company_name self)])%list.
Proof.
  rewrite research_company_unfold.
  unfold MultiSourceResearcher.fetch_apollo_data,
    MultiSourceResearcher.fetch_tavily_data,
    MultiSourceResearcher.fetch_coresignal_data.
  pose proof (apollo_fetch_frame (MultiSourceResearcher.apollo_api self)
                (apollo_http o) w) as [Ha _].
  destruct (ApolloOrganizationAPI.organization_enrichment_api _ _ w) as [ra w1].
  pose proof (tavily_fetch_world (MultiSourceResearcher.company_name self)
                (tavily_search o) w1) as Ht.
  destruct (get_major_customers_async _ _ w1) as [rt w2].
  pose proof (coresignal_fetch_frame (MultiSourceResearcher.coresignal_api self)
                (coresignal_http o) w2) as [Hc _].
  destruct (CoreSignalMultiSourceAPI.company_multi_source_enrich _ _ w2) as [rc w3].
  simpl in *. subst w2.
  assert (H3 : tavily_queries (net_log w3)
               = (tavily_queries (net_log w)
                  ++ [customers_query (MultiSourceResearcher.company_name self)])%list).
  { rewrite Hc. simpl. rewrite tavily_queries_app, Ha. reflexivity. }
  destruct (gather _ ra rt rc) as [[[a t] c]|e]; [|exact H3].
  destruct (MultiSourceResearcher._set_company_name_from_data self a c) as [self'|e];
    [|exact H3].
  pose proof (generate_llm_company_report_net self' a c t (llm_invoke o) w3) as Hg.
  destruct (MultiSourceResearcher.generate_llm_company_report _ _ _ _ _ _)
    as [[[report c']|e] w4]; simpl in *; by rewrite Hg.
Qed.

(** C9. For every research request (a researcher as [__init__] builds it,
    whatever the providers answer and in whatever order), the one Tavily
    query of the research call is built from the fallback display name:
    the domain with ".com" and "www." removed, title-cased. *)
Theorem tavily_query_uses_fallback_name (environ : gmap string string)
    (domain : string) (self : MultiSourceResearcher.t) (o : oracle) (w : world) :
  MultiSourceResearcher.__init__ environ domain = Ok self ->
  tavily_queries (net_log (MultiSourceResearcher.research_company self o w).2)
  = (tavily_queries (net_log w)
     ++ [customers_query (JStr (title (replace (replace domain ".com" "") "www." "")))])%list.
Proof.
  intros Hinit. rewrite research_company_queries.
  unfold MultiSourceResearcher.__init__, ApolloOrganizationAPI.__init__,
    CoreSignalMultiSourceAPI.__init__ in Hinit.
  repeat case_match; simpl in Hinit; simplify_eq. reflexivity.
Qed.

Lemma tavily_query_uses_fallback_name_witness :
  let environ : gmap string string :=
    <["APOLLO_API_KEY" := "a"]> (<["CORESIGNAL_API_KEY" := "c"]> ∅) in
  let o := {| apollo_http :=
                HttpResponse 200
                  (Some (JObj [("organization", JObj [("name", JStr "Acme Corp")])]));
              coresignal_http := HttpResponse 200 (Some (JObj []));
              tavily_search := fun _ => Ok (JObj [("results", JList [])]);
              llm_invoke := fun _ => Ok "report";
              completion_order := [Apollo; CoreSignal; Tavily] |} in
  tavily_queries
    (net_log (MultiSourceResearcher.research_company (fresh "www.acme.com") o
                (World ∅ [] [])).2)
  = [customers_query (JStr "Acme")].
Proof.
  intros environ o.
  exact (tavily_query_uses_fallback_name environ "www.acme.com"
           (fresh "www.acme.com") o (World ∅ [] []) eq_refl).
Defined.

(** ** Fan-out and fan-in *)

Lemma omap_nil_inv {A B} (f : A -> option B) (l : list A) x :
  omap f l = [] -> x ∈ l -> f x = None.
Proof.
  intros H Hx. destruct (f x) as [b|] eqn:E; [|done].
  assert (b ∈ omap f l) as Hb by (apply list_elem_of_omap; eauto).
  rewrite H in Hb. by apply elem_of_nil in Hb.
Qed.

Lemma gather_failure {A B C} order (ra : result A) (rt : result B) (rc : result C)
    (p : provider) (e : exn) :
  let failure q :=
    match q with
    | Apollo => failure_of ra
    | Tavily => failure_of rt
    | CoreSignal => failure_of rc
    end in
  failure p = Some e ->
  exists p' e', failure p' = Some e' /\ gather order ra rt rc = Raise e'.
Proof.
  intros failure Hp. unfold gather. fold failure.
  destruct (omap failure (order ++ [Apollo; Tavily; CoreSignal])%list) as [|e' rest] eqn:E.
  - assert (failure p = None) as Hn.
    { eapply omap_nil_inv; [exact E|]. apply elem_of_app. right.
      destruct p; set_solver. }
    congruence.
  - assert (e' ∈ omap failure (order ++ [Apollo; Tavily; CoreSignal])%list) as He
      by (rewrite E; left).
    apply list_elem_of_omap in He as (p' & _ & Hp'). eauto.
Qed.

(** C1. For every research request, if the fetch of a provider fails,
    then [research_company] raises the exception of a provider whose fetch
    failed (that provider's, when it is the only one to fail), returns no
    result dict, and the LLM log is as it was: no synthesis call is made. *)
Theorem fan_out_short_circuit (self : MultiSourceResearcher.t) (o : oracle)
    (w : world) (p : provider) (e : exn) :
  provider_failure self o w p = Some e ->
  exists p' e',
    provider_failure self o w p' = Some e'
    /\ (MultiSourceResearcher.research_company self o w).1 = Raise e'
    /\ llm_log (MultiSourceResearcher.research_company self o w).2 = llm_log w
    /\ ((forall q, q <> p -> provider_failure self o w q = None) -> e' = e).
Proof.
  unfold provider_failure. rewrite research_company_unfold.
  unfold MultiSourceResearcher.fetch_apollo_data,
    MultiSourceResearcher.fetch_tavily_data,
    MultiSourceResearcher.fetch_coresignal_data.
  pose proof (apollo_fetch_frame (MultiSourceResearcher.apollo_api self)
                (apollo_http o) w) as [_ Ha].
  destruct (ApolloOrganizationAPI.organization_enrichment_api _ _ w) as [ra w1].
  pose proof (tavily_fetch_world (MultiSourceResearcher.company_name self)
                (tavily_search o) w1) as Ht.
  destruct (get_major_customers_async _ _ w1) as [rt w2].
  pose proof (coresignal_fetch_frame (MultiSourceResearcher.coresignal_api self)
                (coresignal_http o) w2) as [_ Hc].
  destruct (CoreSignalMultiSourceAPI.company_multi_source_enrich _ _ w2) as [rc w3].
  simpl in Ha, Ht, Hc. subst w2. intros Hp.
  destruct (gather_failure (completion_order o) ra rt rc p e Hp) as (p' & e' & Hp' & Hg).
  exists p', e'. rewrite Hg. simpl. split; [exact Hp'|]. split; [reflexivity|].
  split; [by rewrite Hc, <- Ha|].
  intros Honly. destruct (decide (p' = p)) as [->|Hne]; [congruence|].
  specialize (Honly p' Hne). congruence.
Qed.

Lemma fan_out_short_circuit_witness :
  let o := {| apollo_http := HttpResponse 200 (Some (JObj []));
              coresignal_http := HttpResponse 503 None;
              tavily_search := fun _ => Ok (JObj [("results", JList [])]);
              llm_invoke := fun _ => Ok "report";
              completion_order := [Tavily; Apollo; CoreSignal] |} in
  exists p' e',
    provider_failure (fresh "example.com") o (World ∅ [] []) p' = Some e'
    /\ (MultiSourceResearcher.research_company (fresh "example.com") o
          (World ∅ [] [])).1 = Raise e'
    /\ llm_log (MultiSourceResearcher.research_company (fresh "example.com") o
                  (World ∅ [] [])).2 = []
    /\ ((forall q, q <> CoreSignal ->
           provider_failure (fresh "example.com") o (World ∅ [] []) q = None) ->
        e' = Exn HTTPError "bad status").
Proof.
  intros o.
  exact (fan_out_short_circuit (fresh "example.com") o (World ∅ [] []) CoreSignal
           (Exn HTTPError "bad status") eq_refl).
Defined.

(** ** Sorting the competitors *)

Lemma insert_desc_perm x l : insert_desc x l ≡ₚ x :: l.
Proof.
  induction l as [|y l IH]; simpl; [done|].
  destruct (x.1 <? y.1)%Z; [|done].
  rewrite IH. apply Permutation_swap.
Qed.

Lemma sort_desc_perm l : sort_desc l ≡ₚ l.
Proof.
  induction l as [|x l IH]; simpl; [done|].
  fold (sort_desc l). by rewrite insert_desc_perm, IH.
Qed.

Lemma insert_desc_sorted x l :
  StronglySorted key_desc l -> StronglySorted key_desc (insert_desc x l).
Proof.
  induction 1 as [|y l Hs IH Hy]; simpl.
  - repeat constructor.
  - destruct (x.1 <? y.1)%Z eqn:E.
    + apply Z.ltb_lt in E. constructor; [exact IH|].
      rewrite insert_desc_perm. constructor; [unfold key_desc; lia | exact Hy].
    + apply Z.ltb_ge in E. constructor; [by constructor|].
      constructor; [exact E|].
      eapply Forall_impl; [exact Hy|]. unfold key_desc. intros z Hz. simpl in *. lia.
Qed.

Lemma sort_desc_sorted l : StronglySorted key_desc (sort_desc l).
Proof.
  induction l as [|x l IH]; simpl; [constructor|].
  by apply insert_desc_sorted.
Qed.


Lemma decorate_spec keys l dl :
  mapM similarity_key l = Ok keys ->
  decorate keys l = Some dl ->
  dl = (fun x => (score_or_zero x, x)) <$> l.
Proof.
  revert keys dl. induction l as [|x l IH]; intros keys dl; simpl.
  - intros [= <-]. simpl. by intros [= <-].
  - unfold score_or_zero at 1.
    destruct (similarity_key x) as [k|]; [|done].
    destruct (mapM similarity_key l) as [ks|] eqn:E; [|done].
    intros [= <-]. simpl.
    destruct (numeric k) as [z|]; [|done].
    destruct (decorate ks l) as [r|] eqn:D; [|done].
    intros [= <-]. f_equal. by eapply IH.
Qed.

(** What the in-place sort leaves in the list: the same competitors,
    largest score first. *)
Lemma sort_by_similarity_spec l sorted :
  sort_by_similarity (JList l) = Ok sorted ->
  sorted ≡ₚ l /\ StronglySorted by_score_desc sorted.
Proof.
  unfold sort_by_similarity. simpl.
  destruct (mapM similarity_key l) as [keys|] eqn:K; [|done]. simpl.
  destruct (decorate keys l) as [dl|] eqn:D.
  - intros [= <-]. pose proof (decorate_spec _ _ _ K D) as ->.
    set (dl := (λ x, (score_or_zero x, x)) <$> l).
    assert (Hl : l = dl.*2).
    { unfold dl. rewrite <- list_fmap_compose. simpl.
      by rewrite list_fmap_id. }
    split.
    + rewrite sort_desc_perm. by rewrite <- Hl.
    + assert (Hall : Forall (fun d => d.1 = score_or_zero d.2) (sort_desc dl)).
      { rewrite sort_desc_perm. unfold dl. apply Forall_fmap, Forall_true. done. }
      pose proof (sort_desc_sorted dl) as Hs.
      induction Hs as [|d ds Hs IH Hd]; simpl; [constructor|].
      apply Forall_cons in Hall as [Hd1 Hall].
      constructor; [by apply IH|].
      apply Forall_fmap. rewrite Forall_forall in Hd, Hall |- *.
      intros d' Hin. unfold by_score_desc. simpl.
      rewrite <- Hd1, <- (Hall d' Hin). by apply Hd.
  - destruct (length l <? 2)%nat eqn:L; [|done]. intros [= <-].
    split; [done|]. apply Nat.ltb_lt in L.
    destruct l as [|x [|y l]]; simpl in L; [constructor| |lia].
    repeat constructor.
Qed.

Lemma assoc_assoc_set k v kvs : assoc k (assoc_set k v kvs) = Some v.
Proof.
  induction kvs as [|[k' v'] kvs IH]; simpl.
  - by rewrite String.eqb_refl.
  - destruct (String.eqb k k') eqn:E; simpl; rewrite ?String.eqb_refl, ?E; done.
Qed.

Lemma extract_competitors_spec data l top data' :
  py_get_default data "competitors" (JList []) = Ok (JList l) ->
  extract_competitors data = Ok (top, data') ->
  exists sorted,
    top = take 5 sorted /\ sorted ≡ₚ l /\ StronglySorted by_score_desc sorted
    /\ py_get_default data' "competitors" (JList []) = Ok (JList sorted).
Proof.
  intros Hget. unfold extract_competitors. rewrite Hget.
  cbn [mbind result_bind].
  destruct (sort_by_similarity (JList l)) as [sorted|] eqn:S; [|done].
  cbn [mbind result_bind].
  intros [= <- <-]. exists sorted.
  destruct (sort_by_similarity_spec _ _ S) as [Hp Hs].
  split; [done|]. split; [done|]. split; [done|].
  destruct data as [| | | | |kvs]; try done. simpl in Hget.
  destruct (assoc "competitors" kvs) as [v|] eqn:A.
  - simpl. by rewrite assoc_assoc_set.
  - simpl. rewrite A. simplify_eq. by apply Permutation_nil_r in Hp as ->.
Qed.

(** C6 (as amended). In the prompt of the CoreSignal report, the
    [Competitors] field holds the first five competitors of the payload's
    list put in descending order of similarity score (a missing score
    counting as zero): five of them when the payload has five or more. The
    payload embedded in the same prompt still lists every competitor, in
    that order. *)
Theorem competitors_field_top5 (self : CoreSignalMultiSourceAPI.t)
    (api_response : json) (llm : prompt -> result string) (w w' : world)
    (l : list json) (report : string) (api_response' : json) :
  py_get_default api_response "competitors" (JList []) = Ok (JList l) ->
  CoreSignalMultiSourceAPI.generate_markdown_report_with_llm self api_response llm w
    = (Ok (report, api_response'), w') ->
  exists sorted schema news updates,
    llm_log w' = (llm_log w
                  ++ [CoreSignalPrompt (CoreSignalMultiSourceAPI.website self) schema
                        news (take 5 sorted) updates api_response'])%list
    /\ sorted ≡ₚ l
    /\ StronglySorted by_score_desc sorted
    /\ length (take 5 sorted) = min 5 (length l)
    /\ py_get_default api_response' "competitors" (JList []) = Ok (JList sorted).
Proof.
  intros Hget.
  unfold CoreSignalMultiSourceAPI.generate_markdown_report_with_llm,
    CoreSignalMultiSourceAPI.load_company_schema, bind, lift, try_except,
    json_load, llm_call, ret, raise.
  destruct (py_get_default api_response "company_updates" (JList [])) as [cu|]; [|done].
  destruct (recent_news cu) as [news|]; [|done].
  destruct (all_descriptions cu) as [updates|]; [|done].
  destruct (extract_competitors api_response) as [[top data']|] eqn:X; [|done].
  destruct (extract_competitors_spec _ _ _ _ Hget X) as (sorted & -> & Hp & Hs & Hd).
  assert (Hlen : length (take 5 sorted) = min 5 (length l))
    by (by rewrite length_take, Hp).
  destruct (fs w !! CoreSignalMultiSourceAPI.schema_path) as [[]|]; simpl;
    repeat case_match; intros; simplify_eq; simpl;
    eexists sorted, _, news, updates; done.
Qed.

Lemma competitors_field_top5_witness :
  let self := CoreSignalMultiSourceAPI.mk "example.com" "example_com" in
  let llm := fun _ : prompt => Ok "report" in
  let w := World (<[CoreSignalMultiSourceAPI.schema_path := FJson (JObj [])]> ∅) [] [] in
  let run := CoreSignalMultiSourceAPI.generate_markdown_report_with_llm self
               sample_payload llm w in
  let api_response' := match run.1 with Ok (_, d) => d | Raise _ => JNull end in
  exists sorted schema news updates,
    llm_log run.2 = [CoreSignalPrompt "example.com" schema news (take 5 sorted) updates
                       api_response']
    /\ sorted ≡ₚ eight_competitors
    /\ StronglySorted by_score_desc sorted
    /\ length (take 5 sorted) = 5.
Proof.
  intros self llm w run api_response'.
  destruct (competitors_field_top5 self sample_payload llm w run.2
              eight_competitors "report" api_response'
              eq_refl ltac:(vm_compute; reflexivity))
    as (sorted & schema & news & updates & H1 & H2 & H3 & H4 & _).
  exists sorted, schema, news, updates. repeat split; assumption.
Defined.

(** C6 (as stated) fails: with eight competitors of distinct scores, the
    prompt of the multi-source report, and the payload embedded in the
    prompt of the CoreSignal report, list all eight competitors. *)
Lemma competitors_counterexample :
  let first := MultiSourceResearcher.research_company (fresh "example.com")
                 sample_oracle (World ∅ [] []) in
  let second := CoreSignalMultiSourceAPI.generate_markdown_report_with_llm
                  (CoreSignalMultiSourceAPI.mk "example.com" "example_com")
                  sample_payload (fun _ => Ok "report")
                  (World (<[CoreSignalMultiSourceAPI.schema_path := FJson (JObj [])]> ∅)
                     [] []) in
  let all_eight :=
    JList [competitor "c80" 80; competitor "c70" 70; competitor "c60" 60;
           competitor "c50" 50; competitor "c40" 40; competitor "c30" 30;
           competitor "c20" 20; competitor "c10" 10] in
  embedded_competitors <$> llm_log first.2 = [all_eight]
  /\ embedded_competitors <$> llm_log second.2 = [all_eight].
Proof. vm_compute. done. Qed.

(** C8. The payload fetched from CoreSignal lists its competitors in the
    provider's order, and so does the cache file written by the fetch; the
    payload returned under [raw_data] by the same research call lists them
    in descending order of score. *)
Theorem raw_data_competitors_reordered :
  let run := MultiSourceResearcher.research_company (fresh "example.com")
               sample_oracle (World ∅ [] []) in
  fs run.2 !! CoreSignalMultiSourceAPI.file_path
                (MultiSourceResearcher.coresignal_api (fresh "example.com"))
  = Some (FJson sample_payload)
  /\ match run.1 with
     | Ok (result, _) =>
         field (field (field result "raw_data") "coresignal_data") "competitors"
         = JList [competitor "c80" 80; competitor "c70" 70; competitor "c60" 60;
                  competitor "c50" 50; competitor "c40" 40; competitor "c30" 30;
                  competitor "c20" 20; competitor "c10" 10]
         /\ field (field (field result "raw_data") "coresignal_data") "competitors"
            <> field sample_payload "competitors"
     | Raise _ => False
     end.
Proof. vm_compute. split; [done|]. split; [done|]. discriminate. Qed.

(** ** Delivery *)


(** What the e-mail step leaves in [email_result]: nothing when no address
    was given or the service is missing, else a dict that starts with its
    [success] flag. *)
Lemma email_step_spec sv email w :
  exists er, email_step sv email w = (Ok er, w)
    /\ (er = JNull \/ exists b rest, er = JObj (("success", JBool b) :: rest))
    /\ (unset email = true -> er = JNull)
    /\ (unset email = false -> EMAIL_SERVICE_AVAILABLE sv = true -> er <> JNull).
Proof.
  unfold email_step, try_except, bind, lift, ret, failure,
    EmailService.send_pdf_report.
  destruct email as [to_email|]; [|by eexists; repeat split; eauto].
  simpl. destruct (String.eqb to_email ""); simpl;
    [by eexists; repeat split; eauto|].
  destruct (EMAIL_SERVICE_AVAILABLE sv); simpl;
    [|by eexists; repeat split; eauto].
  destruct (EmailService.__init__ (environ sv)) as [svc|e]; simpl;
    [|by eexists; repeat split; eauto].
  destruct (EmailService.is_configured svc); simpl;
    [|by eexists; repeat split; eauto].
  destruct (smtp_session sv); by eexists; repeat split; eauto.
Qed.

Lemma cleanup_spec sv w :
  exists w', cleanup sv w = (Ok tt, w') /\ fs w' = delete (pdf_path sv) (fs w).
Proof.
  unfold cleanup, try_except, unlink, ret.
  destruct (fs w !! pdf_path sv) eqn:E; simpl.
  - by eexists.
  - exists w. split; [done|]. symmetry. by apply delete_id.
Qed.





(** ** The handlers, from request to answer *)

Lemma bind_ok_inv {A B} (m : M A) (f : A -> M B) w b w' :
  bind m f w = (Ok b, w') ->
  exists a w1, m w = (Ok a, w1) /\ f a w1 = (Ok b, w').
Proof.
  unfold bind. destruct (m w) as [[a|e] w1]; [eauto|done].
Qed.

Ltac bind_step H x w1 Hx :=
  apply bind_ok_inv in H as (x & w1 & Hx & H).

Lemma answer_or_500_inv body what w r w' :
  answer_or_500 body what w = (r, w') ->
  (exists detail, r = HTTPException 500 detail) \/ body w = (Ok r, w').
Proof.
  unfold answer_or_500. destruct (body w) as [[a|e] w1].
  - intros [= <- <-]. by right.
  - destruct (isinstance _ _); intros [= <- <-]; left; by eexists.
Qed.

Lemma rendered_in_place sv text (w w1 w2 w3 : world) u1 u2 :
  md_path sv <> pdf_path sv ->
  write_file (pdf_path sv) (FPdf text) w = (Ok u1, w1) ->
  unlink (md_path sv) w1 = (Ok u2, w2) ->
  fs w2 !! pdf_path sv = Some (FPdf text).
Proof.
  intros Hne [= _ <-]. unfold unlink.
  destruct (fs _ !! md_path sv); [|done]. intros [= _ <-]. simpl.
  rewrite lookup_delete_ne by done. apply lookup_insert_eq.
Qed.

(** An answer of the multi-source handler is an error, or the answer of a
    delivery that started with the rendered PDF in place. *)
Lemma multi_source_endpoint_inv sv request w r w' :
  multi_source_research_endpoint sv request w = (r, w') ->
  (exists detail, r = HTTPException 500 detail)
  \/ exists company_name pdf_filename raw_data text w0 d,
       (md_path sv <> pdf_path sv -> fs w0 !! pdf_path sv = Some (FPdf text))
       /\ multi_source_deliver sv request company_name pdf_filename raw_data w0
          = (Ok d, w')
       /\ r = answer d.
Proof.
  intros H. apply answer_or_500_inv in H as [H|H]; [by left|right].
  bind_step H researcher w1 H1. bind_step H res w2 H2.
  bind_step H report w3 H3. bind_step H company_name w4 H4.
  bind_step H raw w5 H5. bind_step H apollo_data w6 H6.
  bind_step H customers_data w7 H7. bind_step H coresignal_data w8 H8.
  bind_step H text w9 H9. bind_step H u10 w10 H10.
  bind_step H safe w11 H11. bind_step H u12 w12 H12.
  bind_step H u13 w13 H13. bind_step H u14 w14 H14.
  bind_step H u15 w15 H15. bind_step H d w16 H16.
  injection H as <- <-.
  eexists company_name, _, _, text, w15, d.
  split; [intros Hne; eapply rendered_in_place; eauto|].
  split; [exact H16|reflexivity].
Qed.

Lemma coresignal_endpoint_inv sv request w r w' :
  coresignal_generate_pdf_report sv request w = (r, w') ->
  (exists detail, r = HTTPException 500 detail)
  \/ exists company_name pdf_filename text w0 d,
       (md_path sv <> pdf_path sv -> fs w0 !! pdf_path sv = Some (FPdf text))
       /\ coresignal_deliver sv request company_name pdf_filename w0 = (Ok d, w')
       /\ r = answer d.
Proof.
  intros H. apply answer_or_500_inv in H as [H|H]; [by left|right].
  bind_step H api w1 H1. bind_step H api_response w2 H2.
  bind_step H rep w3 H3. destruct rep as [markdown_report api_response'].
  bind_step H u4 w4 H4. bind_step H company_name w5 H5.
  bind_step H safe w6 H6. bind_step H u7 w7 H7.
  bind_step H u8 w8 H8. bind_step H u9 w9 H9.
  bind_step H u10 w10 H10. bind_step H d w11 H11.
  injection H as <- <-.
  eexists company_name, _, markdown_report, w10, d.
  split; [intros Hne; eapply rendered_in_place; eauto|].
  split; [exact H11|reflexivity].
Qed.





(** * Further properties *)

(** ** Strings: file names and cache keys *)

Lemma Ok_inj {A} (a b : A) : Ok a = Ok b -> a = b.
Proof. by intros [= ->]. Qed.

Lemma prefix_single c x s :
  String.prefix (String c EmptyString) (String x s) = Ascii.eqb c x.
Proof.
  simpl. destruct (ascii_dec c x) as [->|Hne].
  - rewrite Ascii.eqb_refl. by destruct s.
  - symmetry. by apply Ascii.eqb_neq.
Qed.

Lemma replace_single c new s :
  replace s (String c EmptyString) new = replace_char c new s.
Proof.
  unfold replace. induction s as [|x s IH]; [done|].
  cbn [replace_from replace_char]. rewrite prefix_single.
  destruct (Ascii.eqb c x); cbn [String.length Nat.sub]; by rewrite IH.
Qed.

Lemma replace_char_occurs c d s x :
  occurs x (replace_char c (String d EmptyString) s) ->
  x = d \/ (x <> c /\ occurs x s).
Proof.
  unfold occurs. induction s as [|y s IH]; simpl; [by intros ?%elem_of_nil|].
  destruct (Ascii.eqb c y) eqn:E; simpl.
  - intros [->|H]%elem_of_cons; [by left|].
    destruct (IH H) as [?|[? ?]]; [by left|right]. split; [done|by right].
  - apply Ascii.eqb_neq in E.
    intros [->|H]%elem_of_cons; [right; split; [done|by left]|].
    destruct (IH H) as [?|[? ?]]; [by left|right]. split; [done|by right].
Qed.

Lemma replace_char_absent c new s :
  ~ occurs c s -> replace_char c new s = s.
Proof.
  unfold occurs. induction s as [|y s IH]; simpl; [done|].
  intros H. destruct (Ascii.eqb c y) eqn:E.
  - apply Ascii.eqb_eq in E as ->. destruct H. by left.
  - f_equal. apply IH. intros ?. apply H. by right.
Qed.

Lemma replace_char_idem c d s :
  c <> d ->
  replace_char c (String d EmptyString) (replace_char c (String d EmptyString) s)
  = replace_char c (String d EmptyString) s.
Proof.
  intros Hne. apply replace_char_absent.
  intros [?|[? _]]%replace_char_occurs; congruence.
Qed.





Lemma apollo_file_path_underscores d :
  ApolloOrganizationAPI.file_path (ApolloOrganizationAPI.mk (replace d "." "_"))
  = ApolloOrganizationAPI.file_path (ApolloOrganizationAPI.mk d).
Proof.
  unfold ApolloOrganizationAPI.file_path. cbn [ApolloOrganizationAPI.domain].
  rewrite !(replace_single "."), replace_char_idem; done.
Qed.

(** X2. The Apollo cache key does not tell a dot from an underscore: once a
    payload has been fetched for a domain, a fetch for that domain written
    with "_" for every "." returns the same payload from the first
    domain's cache file and sends no request. *)
Theorem apollo_cache_key_collision (d : string) (http http' : http_outcome)
    (w w' : world) (j : json) :
  ApolloOrganizationAPI.organization_enrichment_api
    (ApolloOrganizationAPI.mk d) http w = (Ok j, w') ->
  ApolloOrganizationAPI.organization_enrichment_api
    (ApolloOrganizationAPI.mk (replace d "." "_")) http' w' = (Ok j, w').
Proof.
  intros H. apply apollo_cache_hit. rewrite apollo_file_path_underscores.
  by eapply apollo_fetch_warms.
Qed.

Lemma apollo_cache_key_collision_witness :
  let w := World ∅ [] [] in
  let first := ApolloOrganizationAPI.organization_enrichment_api
                 (ApolloOrganizationAPI.mk "shop.example.com")
                 (HttpResponse 200 (Some (JObj [("name", JStr "Shop")]))) w in
  ApolloOrganizationAPI.organization_enrichment_api
    (ApolloOrganizationAPI.mk "shop_example_com")
    (HttpResponse 200 (Some (JObj [("name", JStr "Other")]))) first.2
  = (Ok (JObj [("name", JStr "Shop")]), first.2).
Proof.
  intros w first.
  exact (apollo_cache_key_collision "shop.example.com"
           (HttpResponse 200 (Some (JObj [("name", JStr "Shop")])))
           (HttpResponse 200 (Some (JObj [("name", JStr "Other")])))
           w first.2 (JObj [("name", JStr "Shop")]) eq_refl).
Defined.

Lemma prefix_app p s : String.prefix p (p +:+ s) = true.
Proof.
  induction p as [|a p IH]; simpl; [by destruct s|].
  by destruct (ascii_dec a a).
Qed.

Lemma replace_from_skip old new p s :
  replace_from old new (String.length p) (p +:+ s) = replace_from old new 0 s.
Proof. induction p as [|a p IH]; simpl; [by destruct s|done]. Qed.

(** A leading occurrence is replaced and the scan goes on after it. *)
Lemma replace_leading old new s :
  old <> "" -> replace (old +:+ s) old new = new +:+ replace s old new.
Proof.
  destruct old as [|a old]; [done|]. intros _. unfold replace.
  change (String a old +:+ s) with (String a (old +:+ s)).
  cbn [replace_from].
  change (String a (old +:+ s)) with (String a old +:+ s).
  rewrite prefix_app. cbn [String.length]. rewrite Nat.sub_1_r. simpl.
  by rewrite replace_from_skip.
Qed.

Lemma replace_http_scheme s :
  replace ("http://" +:+ s) "https://" "" = "http://" +:+ replace s "https://" "".
Proof. unfold replace. cbn. reflexivity. Qed.

(** X3. The CoreSignal cache key ignores the scheme: clients built for a
    website with "https://" or "http://" in front and for the bare website
    use the same cache file, so the CoreSignal handler (which puts
    "https://" in front) and the multi-source researcher (which passes the
    bare domain) share it. *)
Theorem coresignal_cache_key_ignores_scheme (environ : gmap string string)
    (s : string) (c c1 c2 : CoreSignalMultiSourceAPI.t) :
  CoreSignalMultiSourceAPI.__init__ environ s = Ok c ->
  CoreSignalMultiSourceAPI.__init__ environ ("https://" +:+ s) = Ok c1 ->
  CoreSignalMultiSourceAPI.__init__ environ ("http://" +:+ s) = Ok c2 ->
  CoreSignalMultiSourceAPI.file_path c1 = CoreSignalMultiSourceAPI.file_path c
  /\ CoreSignalMultiSourceAPI.file_path c2 = CoreSignalMultiSourceAPI.file_path c.
Proof.
  unfold CoreSignalMultiSourceAPI.__init__.
  destruct (unset _); [done|]. intros H H1 H2.
  assert (Hs : CoreSignalMultiSourceAPI.website_slug c1
               = CoreSignalMultiSourceAPI.website_slug c
               /\ CoreSignalMultiSourceAPI.website_slug c2
                 = CoreSignalMultiSourceAPI.website_slug c).
  { apply Ok_inj in H, H1, H2. subst c c1 c2.
    cbn [CoreSignalMultiSourceAPI.website_slug].
    rewrite (replace_leading "https://") by done.
    rewrite replace_http_scheme, (replace_leading "http://") by done.
    done. }
  unfold CoreSignalMultiSourceAPI.file_path. destruct Hs as [-> ->]. done.
Qed.

Lemma coresignal_cache_key_ignores_scheme_witness :
  let environ : gmap string string := <["CORESIGNAL_API_KEY" := "c"]> ∅ in
  CoreSignalMultiSourceAPI.file_path
    (CoreSignalMultiSourceAPI.mk "https://www.example.com" "example_com")
  = CoreSignalMultiSourceAPI.file_path
      (CoreSignalMultiSourceAPI.mk "www.example.com" "example_com").
Proof.
  intros environ.
  exact (proj1 (coresignal_cache_key_ignores_scheme environ "www.example.com"
                  _ _ _ eq_refl eq_refl eq_refl)).
Defined.

(** ** Provider clients: requests and the cache *)

Lemma apollo_fetch_net self http w :
  let w' := (ApolloOrganizationAPI.organization_enrichment_api self http w).2 in
  (net_log w' = net_log w
   \/ net_log w' = (net_log w ++ [ApolloGet (ApolloOrganizationAPI.domain self)])%list)
  /\ (fs w !! ApolloOrganizationAPI.file_path self = None ->
      net_log w' = (net_log w ++ [ApolloGet (ApolloOrganizationAPI.domain self)])%list).
Proof.
  rewrite apollo_fetch_cases, apollo_fresh_call.
  destruct (fs w !! ApolloOrganizationAPI.file_path self) as [[]|],
    http as [e|st [b|]]; simpl; split; try done; auto.
Qed.

Lemma coresignal_fetch_net self http w :
  let w' := (CoreSignalMultiSourceAPI.company_multi_source_enrich self http w).2 in
  (net_log w' = net_log w
   \/ net_log w' = (net_log w
                    ++ [CoreSignalGet (CoreSignalMultiSourceAPI.website self)])%list)
  /\ (fs w !! CoreSignalMultiSourceAPI.file_path self = None ->
      net_log w' = (net_log w
                    ++ [CoreSignalGet (CoreSignalMultiSourceAPI.website self)])%list).
Proof.
  rewrite coresignal_fetch_cases, coresignal_fresh_call.
  destruct (fs w !! CoreSignalMultiSourceAPI.file_path self) as [[]|],
    http as [e|st [b|]]; simpl; try destruct ((400 <=? st) && (st <? 600))%Z;
    simpl; split; try done; auto.
Qed.

(** X4. Neither client ever sends more than one request per fetch, and each
    sends exactly one, for its own identifier, when it has no cache file. *)
Theorem fetch_sends_at_most_one_request
    (apollo : ApolloOrganizationAPI.t) (coresignal : CoreSignalMultiSourceAPI.t)
    (ha hc : http_outcome) (w : world) :
  let wa := (ApolloOrganizationAPI.organization_enrichment_api apollo ha w).2 in
  let wc := (CoreSignalMultiSourceAPI.company_multi_source_enrich coresignal hc w).2 in
  ((net_log wa = net_log w
    \/ net_log wa
       = (net_log w ++ [ApolloGet (ApolloOrganizationAPI.domain apollo)])%list)
   /\ (fs w !! ApolloOrganizationAPI.file_path apollo = None ->
       net_log wa
       = (net_log w ++ [ApolloGet (ApolloOrganizationAPI.domain apollo)])%list))
  /\ ((net_log wc = net_log w
       \/ net_log wc
          = (net_log w
             ++ [CoreSignalGet (CoreSignalMultiSourceAPI.website coresignal)])%list)
      /\ (fs w !! CoreSignalMultiSourceAPI.file_path coresignal = None ->
          net_log wc
          = (net_log w
             ++ [CoreSignalGet (CoreSignalMultiSourceAPI.website coresignal)])%list)).
Proof. split; [apply apollo_fetch_net | apply coresignal_fetch_net]. Qed.

Lemma apollo_fetch_failure_fs self http w e :
  (ApolloOrganizationAPI.organization_enrichment_api self http w).1 = Raise e ->
  fs (ApolloOrganizationAPI.organization_enrichment_api self http w).2 = fs w.
Proof.
  rewrite apollo_fetch_cases, apollo_fresh_call.
  destruct (fs w !! ApolloOrganizationAPI.file_path self) as [[]|],
    http as [e'|st [b|]]; simpl; done.
Qed.

Lemma coresignal_fetch_failure_fs self http w e :
  (CoreSignalMultiSourceAPI.company_multi_source_enrich self http w).1 = Raise e ->
  fs (CoreSignalMultiSourceAPI.company_multi_source_enrich self http w).2 = fs w.
Proof.
  rewrite coresignal_fetch_cases, coresignal_fresh_call.
  destruct (fs w !! CoreSignalMultiSourceAPI.file_path self) as [[]|],
    http as [e'|st [b|]]; simpl; try destruct ((400 <=? st) && (st <? 600))%Z;
    simpl; done.
Qed.

(** X5. A fetch that raises writes nothing: a failure of the CoreSignal
    client (an error status included) or of the Apollo client is never
    cached, and the next fetch for the same identifier, finding no cache
    file, sends a request again. *)
Theorem failed_fetch_caches_nothing
    (apollo : ApolloOrganizationAPI.t) (coresignal : CoreSignalMultiSourceAPI.t)
    (ha hc ha' hc' : http_outcome) (w : world) (ea ec : exn) :
  fs w !! ApolloOrganizationAPI.file_path apollo = None ->
  fs w !! CoreSignalMultiSourceAPI.file_path coresignal = None ->
  (ApolloOrganizationAPI.organization_enrichment_api apollo ha w).1 = Raise ea ->
  (CoreSignalMultiSourceAPI.company_multi_source_enrich coresignal hc w).1 = Raise ec ->
  let wa := (ApolloOrganizationAPI.organization_enrichment_api apollo ha w).2 in
  let wc := (CoreSignalMultiSourceAPI.company_multi_source_enrich coresignal hc w).2 in
  fs wa = fs w /\ fs wc = fs w
  /\ net_log (ApolloOrganizationAPI.organization_enrichment_api apollo ha' wa).2
     = (net_log wa ++ [ApolloGet (ApolloOrganizationAPI.domain apollo)])%list
  /\ net_log (CoreSignalMultiSourceAPI.company_multi_source_enrich coresignal hc' wc).2
     = (net_log wc
        ++ [CoreSignalGet (CoreSignalMultiSourceAPI.website coresignal)])%list.
Proof.
  intros Ha Hc Hea Hec wa wc.
  pose proof (apollo_fetch_failure_fs _ _ _ _ Hea) as Hfa.
  pose proof (coresignal_fetch_failure_fs _ _ _ _ Hec) as Hfc.
  split; [done|]. split; [done|]. split.
  - apply apollo_fetch_net. subst wa. by rewrite Hfa.
  - apply coresignal_fetch_net. subst wc. by rewrite Hfc.
Qed.

Lemma failed_fetch_caches_nothing_witness :
  let apollo := ApolloOrganizationAPI.mk "example.com" in
  let coresignal := CoreSignalMultiSourceAPI.mk "example.com" "example_com" in
  let w := World ∅ [] [] in
  let wc := (CoreSignalMultiSourceAPI.company_multi_source_enrich coresignal
               (HttpResponse 503 None) w).2 in
  fs wc = ∅
  /\ net_log (CoreSignalMultiSourceAPI.company_multi_source_enrich coresignal
                (HttpResponse 200 (Some (JObj []))) wc).2
     = [CoreSignalGet "example.com"; CoreSignalGet "example.com"].
Proof.
  intros apollo coresignal w wc.
  destruct (failed_fetch_caches_nothing apollo coresignal
              (HttpFail (Exn ConnectionError "down")) (HttpResponse 503 None)
              (HttpResponse 200 (Some (JObj []))) (HttpResponse 200 (Some (JObj [])))
              w (Exn ConnectionError "down") (Exn HTTPError "bad status")
              eq_refl eq_refl eq_refl eq_refl) as (_ & H1 & _ & H2).
  split; [exact H1 | exact H2].
Defined.

Lemma mapM_Forall2 {A B} (f : A -> result B) l l' :
  mapM f l = Ok l' -> Forall2 (fun a b => f a = Ok b) l l'.
Proof.
  revert l'. induction l as [|x l IH]; simpl; intros l'.
  - intros [= <-]. constructor.
  - destruct (f x) as [y|] eqn:E; [|done].
    destruct (mapM f l) as [ys|]; [|done]. intros [= <-].
    constructor; [done|by apply IH].
Qed.

Lemma mapM_failure {A B} (f : A -> result B) l x e :
  x ∈ l -> f x = Raise e -> exists e', mapM f l = Raise e'.
Proof.
  intros Hx Hf. induction l as [|y l IH]; [by apply elem_of_nil in Hx|].
  simpl. apply elem_of_cons in Hx as [<-|Hx].
  - rewrite Hf. by eexists.
  - destruct (f y); [|by eexists]. destruct (IH Hx) as [e' ->]. by eexists.
Qed.

(** X6. The hits of a customer search: empty entries of the result list are
    skipped, every other entry is validated, and the hits come back in
    the order of the list, one per entry kept. One entry that does not
    validate makes the whole search fail. *)
Theorem customer_hits_validated (company_name : json)
    (search : fstring -> result json) (w : world) (kvs : list (string * json))
    (items : list json) :
  search (customers_query company_name) = Ok (JObj kvs) ->
  assoc "results" kvs = Some (JList items) ->
  (forall hits, (get_major_customers_async company_name search w).1 = Ok hits ->
     Forall2 (fun r c => TavilySearchResult_of r = Ok c)
       (filter (fun r => truthy r = true) items) hits)
  /\ (forall r e, r ∈ items -> truthy r = true -> TavilySearchResult_of r = Raise e ->
      exists e', (get_major_customers_async company_name search w).1 = Raise e').
Proof.
  intros Hs Hr.
  unfold get_major_customers_async, bind, send, lift. rewrite Hs. simpl.
  rewrite Hr. simpl. split.
  - intros hits H. by apply mapM_Forall2.
  - intros r e Hin Ht Hf.
    eapply mapM_failure; [|exact Hf]. by apply list_elem_of_filter.
Qed.

Lemma customer_hits_validated_witness :
  let hit := JObj [("url", JStr "https://a.example"); ("title", JStr "A");
                   ("score", JNum 1)] in
  let search := fun _ : fstring => Ok (JObj [("results", JList [JNull; hit; JObj []])]) in
  exists hits,
    (get_major_customers_async (JStr "Example") search (World ∅ [] [])).1 = Ok hits
    /\ Forall2 (fun r c => TavilySearchResult_of r = Ok c) [hit] hits.
Proof.
  intros hit search.
  eassert (E : (get_major_customers_async (JStr "Example") search (World ∅ [] [])).1
               = Ok _) by reflexivity.
  eexists. split; [exact E|].
  exact (proj1 (customer_hits_validated (JStr "Example") search (World ∅ [] [])
                  [("results", JList [JNull; hit; JObj []])] [JNull; hit; JObj []]
                  eq_refl eq_refl) _ E).
Defined.

(** ** The orchestrator: what a research call uses and returns *)

Lemma generate_llm_company_report_inv self a c cust llm w report c' w' :
  MultiSourceResearcher.generate_llm_company_report self a c cust llm w
  = (Ok (report, c'), w') ->
  exists top,
    extract_competitors c = Ok (top, c')
    /\ llm (MultiSourcePrompt (MultiSourceResearcher.company_name self) c' a
              (model_dump <$> cust)) = Ok report
    /\ w' = prompted (MultiSourcePrompt (MultiSourceResearcher.company_name self) c' a
                        (model_dump <$> cust)) w.
Proof.
  unfold MultiSourceResearcher.generate_llm_company_report, bind, lift, llm_call, ret.
  destruct (py_get_default c "company_updates" (JList [])) as [cu|]; [|done].
  destruct (recent_news cu); [|done]. destruct (all_descriptions cu); [|done].
  destruct (extract_competitors c) as [[top d]|]; [|done].
  destruct (llm _) as [rep|] eqn:L; [|done].
  intros [= <- <- <-]. by exists top.
Qed.

(** X7. A research call that succeeds has put exactly one prompt to the LLM;
    the report in the bundle is the LLM's answer to it, and the company
    name and the three payloads in the bundle are the ones in that
    prompt. *)
Theorem bundle_is_what_the_llm_saw (self self' : MultiSourceResearcher.t) (o : oracle)
    (w w' : world) (res : json) :
  MultiSourceResearcher.research_company self o w = (Ok (res, self'), w') ->
  exists customers report,
    let p := MultiSourcePrompt (field res "company_name")
               (field (field res "raw_data") "coresignal_data")
               (field (field res "raw_data") "apollo_data") customers in
    llm_log w' = (llm_log w ++ [p])%list
    /\ llm_invoke o p = Ok report
    /\ field res "report" = JStr report
    /\ field (field res "raw_data") "tavily_customers" = JList customers.
Proof.
  rewrite research_company_unfold.
  unfold MultiSourceResearcher.fetch_apollo_data,
    MultiSourceResearcher.fetch_tavily_data,
    MultiSourceResearcher.fetch_coresignal_data.
  pose proof (apollo_fetch_frame (MultiSourceResearcher.apollo_api self)
                (apollo_http o) w) as [_ Ha].
  destruct (ApolloOrganizationAPI.organization_enrichment_api _ _ w) as [ra w1].
  pose proof (tavily_fetch_world (MultiSourceResearcher.company_name self)
                (tavily_search o) w1) as Ht.
  destruct (get_major_customers_async _ _ w1) as [rt w2].
  pose proof (coresignal_fetch_frame (MultiSourceResearcher.coresignal_api self)
                (coresignal_http o) w2) as [_ Hc].
  destruct (CoreSignalMultiSourceAPI.company_multi_source_enrich _ _ w2) as [rc w3].
  simpl in Ha, Ht, Hc. subst w2.
  destruct (gather _ ra rt rc) as [[[a t] c]|e]; [|done].
  destruct (MultiSourceResearcher._set_company_name_from_data self a c)
    as [self1|e]; [|done].
  destruct (MultiSourceResearcher.generate_llm_company_report _ _ _ _ _ _)
    as [[[report c']|e] w4] eqn:G; [|done].
  apply generate_llm_company_report_inv in G as (top & _ & Hllm & ->).
  intros [= <- <- <-]. exists (model_dump <$> t), report. cbn.
  split; [by rewrite Hc, <- Ha|]. by split.
Qed.

Lemma sample_run_eq :
  MultiSourceResearcher.research_company (fresh "example.com") sample_oracle
    (World ∅ [] []) = (Ok (sample_res, sample_self), sample_world).
Proof. vm_compute. reflexivity. Qed.

Lemma bundle_is_what_the_llm_saw_witness :
  exists customers report,
    MultiSourceResearcher.research_company (fresh "example.com") sample_oracle
      (World ∅ [] []) = (Ok (sample_res, sample_self), sample_world)
    /\ llm_log sample_world
       = [MultiSourcePrompt (field sample_res "company_name")
            (field (field sample_res "raw_data") "coresignal_data")
            (field (field sample_res "raw_data") "apollo_data") customers]
    /\ field sample_res "report" = JStr report.
Proof.
  destruct (bundle_is_what_the_llm_saw _ _ _ _ _ _ sample_run_eq)
    as (customers & report & H1 & _ & H3 & _).
  exists customers, report.
  split; [exact sample_run_eq|]. split; [exact H1|exact H3].
Defined.

Lemma assoc_assoc_set_ne k k' v kvs :
  k <> k' -> assoc k (assoc_set k' v kvs) = assoc k kvs.
Proof.
  intros Hne. induction kvs as [|[k0 v0] kvs IH]; simpl.
  - by apply String.eqb_neq in Hne as ->.
  - destruct (String.eqb k' k0) eqn:E; simpl.
    + apply String.eqb_eq in E as <-. by apply String.eqb_neq in Hne as ->.
    + by rewrite IH.
Qed.

(** Sorting the competitors touches nothing else in the payload. *)
Lemma extract_competitors_frame data top data' :
  extract_competitors data = Ok (top, data') ->
  (forall k, k <> "competitors" -> field data' k = field data k)
  /\ exists l l',
       py_get_default data "competitors" (JList []) = Ok (JList l)
       /\ py_get_default data' "competitors" (JList []) = Ok (JList l')
       /\ l' ≡ₚ l.
Proof.
  intros H. split.
  - intros k Hk. unfold extract_competitors in H.
    destruct (py_get_default data "competitors" (JList [])) as [c|]; [|done].
    cbn [mbind result_bind] in H.
    destruct (sort_by_similarity c) as [sorted|]; [|done].
    cbn [mbind result_bind] in H. injection H as _ <-.
    destruct data as [| | | | |kvs]; try done.
    destruct (assoc "competitors" kvs); [|done].
    simpl. by rewrite assoc_assoc_set_ne.
  - assert (exists l, py_get_default data "competitors" (JList []) = Ok (JList l))
      as [l Hl].
    { unfold extract_competitors in H.
      destruct (py_get_default data "competitors" (JList [])) as [c|]; [|done].
      cbn [mbind result_bind] in H.
      destruct c; try done. by eexists. }
    destruct (extract_competitors_spec _ _ _ _ Hl H) as (sorted & _ & Hp & _ & Hd).
    by exists l, sorted.
Qed.

Lemma gather_ok_inv {A B C} order (ra : result A) (rt : result B) (rc : result C) a t c :
  gather order ra rt rc = Ok (a, t, c) -> ra = Ok a /\ rt = Ok t /\ rc = Ok c.
Proof.
  unfold gather.
  destruct (omap _ _); [|done].
  destruct ra, rt, rc; try done. by intros [= -> -> ->].
Qed.

Lemma generate_llm_company_report_fs self a c cust llm w :
  fs (MultiSourceResearcher.generate_llm_company_report self a c cust llm w).2 = fs w.
Proof.
  unfold MultiSourceResearcher.generate_llm_company_report, bind, lift, llm_call, ret.
  repeat case_match; simplify_eq; reflexivity.
Qed.

(** X8. The CoreSignal payload in the bundle of a successful research call is
    the payload in the cache file but for the order of its competitors:
    every other key holds the same value, and the competitors are the
    same entries, rearranged. *)
Theorem bundle_payload_differs_in_order_only (self self' : MultiSourceResearcher.t)
    (o : oracle) (w w' : world) (res : json) :
  MultiSourceResearcher.research_company self o w = (Ok (res, self'), w') ->
  exists payload l l',
    fs w' !! CoreSignalMultiSourceAPI.file_path (MultiSourceResearcher.coresignal_api self)
    = Some (FJson payload)
    /\ (forall k, k <> "competitors" ->
        field (field (field res "raw_data") "coresignal_data") k = field payload k)
    /\ py_get_default payload "competitors" (JList []) = Ok (JList l)
    /\ py_get_default (field (field res "raw_data") "coresignal_data")
         "competitors" (JList []) = Ok (JList l')
    /\ l' ≡ₚ l.
Proof.
  rewrite research_company_unfold.
  unfold MultiSourceResearcher.fetch_coresignal_data.
  destruct (MultiSourceResearcher.fetch_apollo_data self o w) as [ra w1].
  destruct (MultiSourceResearcher.fetch_tavily_data self o w1) as [rt w2].
  destruct (CoreSignalMultiSourceAPI.company_multi_source_enrich _ _ w2)
    as [rc w3] eqn:Hc.
  destruct (gather _ ra rt rc) as [[[a t] c]|e] eqn:G; [|done].
  apply gather_ok_inv in G as (_ & _ & ->).
  apply coresignal_fetch_warms in Hc.
  destruct (MultiSourceResearcher._set_company_name_from_data self a c)
    as [self1|e]; [|done].
  pose proof (generate_llm_company_report_fs self1 a c t (llm_invoke o) w3) as Hfs.
  destruct (MultiSourceResearcher.generate_llm_company_report _ _ _ _ _ _)
    as [[[report c']|e] w4] eqn:Gn; [|done].
  apply generate_llm_company_report_inv in Gn as (top & Hx & _ & _).
  destruct (extract_competitors_frame _ _ _ Hx) as (Hk & l & l' & Hl & Hl' & Hp).
  intros [= <- <- <-]. exists c, l, l'. cbn. simpl in Hfs. rewrite Hfs. done.
Qed.

Lemma bundle_payload_differs_in_order_only_witness :
  exists payload,
    MultiSourceResearcher.research_company (fresh "example.com") sample_oracle
      (World ∅ [] []) = (Ok (sample_res, sample_self), sample_world)
    /\ fs sample_world !! CoreSignalMultiSourceAPI.file_path
                            (MultiSourceResearcher.coresignal_api (fresh "example.com"))
       = Some (FJson payload)
    /\ field (field (field sample_res "raw_data") "coresignal_data") "company_name"
       = field payload "company_name".
Proof.
  destruct (bundle_payload_differs_in_order_only _ _ _ _ _ _ sample_run_eq)
    as (payload & l & l' & H1 & H2 & _).
  exists payload. split; [exact sample_run_eq|]. split; [exact H1|].
  by apply H2.
Defined.




(** X10. When the CoreSignal fetch fails after Apollo has answered, the
    research call fails, yet the Apollo payload has been cached: a second
    attempt does not ask Apollo again. *)
Theorem apollo_cached_when_coresignal_fails (self : MultiSourceResearcher.t)
    (o : oracle) (w : world) (j : json) (e : exn) :
  (MultiSourceResearcher.fetch_apollo_data self o w).1 = Ok j ->
  provider_failure self o w CoreSignal = Some e ->
  is_ok (MultiSourceResearcher.research_company self o w).1 = false
  /\ fs (MultiSourceResearcher.research_company self o w).2
       !! ApolloOrganizationAPI.file_path (MultiSourceResearcher.apollo_api self)
     = Some (FJson j).
Proof.
  unfold provider_failure. rewrite research_company_unfold.
  unfold MultiSourceResearcher.fetch_apollo_data,
    MultiSourceResearcher.fetch_tavily_data,
    MultiSourceResearcher.fetch_coresignal_data.
  destruct (ApolloOrganizationAPI.organization_enrichment_api _ _ w)
    as [ra w1] eqn:Ha.
  pose proof (tavily_fetch_world (MultiSourceResearcher.company_name self)
                (tavily_search o) w1) as Ht.
  destruct (get_major_customers_async _ _ w1) as [rt w2].
  pose proof (coresignal_fetch_failure_fs (MultiSourceResearcher.coresignal_api self)
                (coresignal_http o) w2) as Hc.
  destruct (CoreSignalMultiSourceAPI.company_multi_source_enrich _ _ w2) as [rc w3].
  simpl in Ht, Hc |- *. intros -> Hf.
  apply apollo_fetch_warms in Ha.
  destruct rc as [c|ec]; [done|]. specialize (Hc ec eq_refl).
  destruct (gather _ _ _ _) as [[[a t] c]|e'] eqn:G.
  - by apply gather_ok_inv in G as (_ & _ & ?).
  - simpl. split; [done|]. by rewrite Hc, Ht.
Qed.

Lemma apollo_cached_when_coresignal_fails_witness :
  let o := {| apollo_http := HttpResponse 200 (Some (JObj [("name", JStr "Example")]));
              coresignal_http := HttpResponse 503 None;
              tavily_search := fun _ => Ok (JObj [("results", JList [])]);
              llm_invoke := fun _ => Ok "report";
              completion_order := [Tavily; Apollo; CoreSignal] |} in
  let run := MultiSourceResearcher.research_company (fresh "example.com") o
               (World ∅ [] []) in
  is_ok run.1 = false
  /\ fs run.2 !! ApolloOrganizationAPI.file_path (ApolloOrganizationAPI.mk "example.com")
     = Some (FJson (JObj [("name", JStr "Example")])).
Proof.
  intros o run.
  exact (apollo_cached_when_coresignal_fails (fresh "example.com") o (World ∅ [] [])
           (JObj [("name", JStr "Example")]) (Exn HTTPError "bad status")
           eq_refl eq_refl).
Defined.

Lemma generate_llm_company_report_llm self a c cust llm w :
  length (llm_log
            (MultiSourceResearcher.generate_llm_company_report self a c cust llm w).2)
  <= S (length (llm_log w)).
Proof.
  unfold MultiSourceResearcher.generate_llm_company_report, bind, lift, llm_call, ret.
  repeat case_match; simplify_eq; simpl; rewrite ?length_app; simpl; lia.
Qed.

(** X11. One research call, whatever its outcome, sends at most three requests
    (one per provider) and puts at most one prompt to the LLM: nothing is
    retried. *)
Theorem research_uses_each_upstream_at_most_once (self : MultiSourceResearcher.t)
    (o : oracle) (w : world) :
  let w' := (MultiSourceResearcher.research_company self o w).2 in
  length (net_log w') <= length (net_log w) + 3
  /\ length (llm_log w') <= length (llm_log w) + 1.
Proof.
  rewrite research_company_unfold.
  unfold MultiSourceResearcher.fetch_apollo_data,
    MultiSourceResearcher.fetch_tavily_data,
    MultiSourceResearcher.fetch_coresignal_data.
  pose proof (apollo_fetch_net (MultiSourceResearcher.apollo_api self)
                (apollo_http o) w) as [Hna _].
  pose proof (apollo_fetch_frame (MultiSourceResearcher.apollo_api self)
                (apollo_http o) w) as [_ Hla].
  destruct (ApolloOrganizationAPI.organization_enrichment_api _ _ w) as [ra w1].
  pose proof (tavily_fetch_world (MultiSourceResearcher.company_name self)
                (tavily_search o) w1) as Ht.
  destruct (get_major_customers_async _ _ w1) as [rt w2].
  pose proof (coresignal_fetch_net (MultiSourceResearcher.coresignal_api self)
                (coresignal_http o) w2) as [Hnc _].
  pose proof (coresignal_fetch_frame (MultiSourceResearcher.coresignal_api self)
                (coresignal_http o) w2) as [_ Hlc].
  destruct (CoreSignalMultiSourceAPI.company_multi_source_enrich _ _ w2) as [rc w3].
  simpl in Hna, Hla, Ht, Hnc, Hlc. subst w2. simpl in Hnc, Hlc.
  assert (H3 : length (net_log w3) <= length (net_log w) + 3
               /\ length (llm_log w3) = length (llm_log w)).
  { split; [|by rewrite Hlc, Hla].
    destruct Hna as [Ea|Ea], Hnc as [Ec|Ec]; rewrite Ec, ?length_app, Ea,
      ?length_app; simpl; lia. }
  destruct (gather _ ra rt rc) as [[[a t] c]|e]; [|simpl; lia].
  destruct (MultiSourceResearcher._set_company_name_from_data self a c)
    as [self1|e]; [|simpl; lia].
  pose proof (generate_llm_company_report_net self1 a c t (llm_invoke o) w3) as Hn.
  pose proof (generate_llm_company_report_llm self1 a c t (llm_invoke o) w3) as Hl.
  destruct (MultiSourceResearcher.generate_llm_company_report _ _ _ _ _ _)
    as [[[report c']|e] w4]; simpl in *; rewrite Hn; lia.
Qed.

(** ** Report synthesis: news and schema *)

Lemma length_substring_0 n s :
  String.length (String.substring 0 n s) = min n (String.length s).
Proof.
  revert n. induction s as [|c s IH]; intros [|n]; simpl; try done.
  by rewrite IH.
Qed.

Lemma news_item_count i update f :
  news_item i update = Ok f -> news_count f = 1.
Proof.
  unfold news_item.
  destruct (py_get_default update "date" (JStr "No Date")); [|done].
  cbn [mbind result_bind].
  destruct (py_get_default update "description" (JStr "No description available")
            ≫= py_slice 500); [|done].
  cbn [mbind result_bind].
  destruct (py_get_default update "description" (JStr "") ≫= py_len) as [n|]; [|done].
  cbn [mbind result_bind].
  destruct (py_get update "reactions_count") as [r|]; [|done].
  cbn [mbind result_bind].
  destruct (py_get update "comments_count") as [c|]; [|done].
  cbn [mbind result_bind]. intros [= <-].
  destruct (truthy r), (truthy c), (500 <? n)%nat; reflexivity.
Qed.

Lemma news_items_count i updates f :
  news_items i updates = Ok f -> news_count f = length updates.
Proof.
  revert i f. induction updates as [|u updates IH]; intros i f; simpl.
  - by intros [= <-].
  - destruct (news_item i u) as [item|] eqn:E; [|done]. cbn [mbind result_bind].
    destruct (news_items (S i) updates) as [more|] eqn:E'; [|done].
    cbn [mbind result_bind]. intros [= <-].
    pose proof (news_item_count _ _ _ E) as H1. pose proof (IH _ _ E') as H2.
    unfold news_count, fstring in *. rewrite filter_app, length_app. lia.
Qed.

(** X12. The news text built from a list of company updates shows the first
    three updates and no more: it has min(3, n) items for n updates, and
    it is the text built from the first three alone. *)
Theorem news_shows_first_three (updates : list json) (news : fstring) :
  updates <> [] ->
  recent_news (JList updates) = Ok news ->
  news_count news = min 3 (length updates)
  /\ recent_news (JList (take 3 updates)) = Ok news.
Proof.
  intros Hne. unfold recent_news.
  destruct updates as [|u updates]; [done|].
  cbn [truthy py_slice py_iter mbind result_bind].
  intros H. split.
  - rewrite (news_items_count _ _ _ H), length_take. lia.
  - cbn [take truthy py_slice py_iter mbind result_bind].
    change (u :: take 2 updates) with (take 3 (u :: updates)).
    by rewrite take_take.
Qed.

Lemma news_shows_first_three_witness :
  let update d := JObj [("date", JStr "2025-01-01"); ("description", JStr d)] in
  let updates := [update "a"; update "b"; update "c"; update "d"; update "e"] in
  exists news, recent_news (JList updates) = Ok news /\ news_count news = 3.
Proof.
  intros update updates.
  eassert (E : recent_news (JList updates) = Ok _) by reflexivity.
  eexists. split; [exact E|].
  exact (proj1 (news_shows_first_three updates _ ltac:(discriminate) E)).
Defined.

(** X13. The summary of a news item is the first 500 characters of the
    update's description, and the ellipsis follows it exactly when the
    description is longer than that. *)
Theorem news_summary_capped (i : nat) (kvs : list (string * json)) (d : string)
    (item : fstring) :
  assoc "description" kvs = Some (JStr d) ->
  news_item i (JObj kvs) = Ok item ->
  Hole (JStr (String.substring 0 500 d)) ∈ item
  /\ String.length (String.substring 0 500 d) = min 500 (String.length d)
  /\ (existsb is_ellipsis item = true <-> 500 < String.length d).
Proof.
  intros Hd. unfold news_item.
  cbn [py_get_default py_get mbind result_bind]. rewrite Hd.
  cbn [py_slice py_len mbind result_bind]. intros [= <-].
  split; [|split; [apply length_substring_0|]].
  - rewrite !elem_of_cons. do 7 right. by left.
  - destruct (500 <? String.length d)%nat eqn:E.
    + apply Nat.ltb_lt in E. split; [done|intros _].
      destruct (truthy _), (truthy _); reflexivity.
    + apply Nat.ltb_ge in E. split; [|lia].
      destruct (truthy match assoc "reactions_count" kvs with
                       | Some v => v | None => JNull end),
               (truthy match assoc "comments_count" kvs with
                       | Some v => v | None => JNull end); cbn; discriminate.
Qed.

Lemma news_summary_capped_witness :
  exists item,
    news_item 1 (JObj [("description", JStr "Launch day")]) = Ok item
    /\ Hole (JStr "Launch day") ∈ item
    /\ ~ (existsb is_ellipsis item = true).
Proof.
  eassert (E : news_item 1 (JObj [("description", JStr "Launch day")]) = Ok _)
    by reflexivity.
  destruct (news_summary_capped 1 [("description", JStr "Launch day")] "Launch day" _
              eq_refl E) as (H1 & _ & H3).
  eexists. split; [exact E|]. split; [exact H1|].
  intros H. apply H3 in H. simpl in H. lia.
Defined.

(** X14. Without the schema file the CoreSignal report cannot be generated:
    the call raises and nothing is sent to the LLM. *)
Theorem report_needs_schema_file (self : CoreSignalMultiSourceAPI.t)
    (api_response : json) (llm : prompt -> result string) (w : world) :
  fs w !! CoreSignalMultiSourceAPI.schema_path = None ->
  let run := CoreSignalMultiSourceAPI.generate_markdown_report_with_llm self
               api_response llm w in
  is_ok run.1 = false /\ llm_log run.2 = llm_log w /\ net_log run.2 = net_log w.
Proof.
  intros Hs.
  unfold CoreSignalMultiSourceAPI.generate_markdown_report_with_llm,
    CoreSignalMultiSourceAPI.load_company_schema, bind, lift, try_except,
    json_load, llm_call, ret, raise.
  destruct (py_get_default api_response "company_updates" (JList [])) as [cu|];
    [|done].
  destruct (recent_news cu); [|done]. destruct (all_descriptions cu); [|done].
  destruct (extract_competitors api_response) as [[top d]|]; [|done].
  cbv zeta. rewrite Hs. done.
Qed.

Lemma report_needs_schema_file_witness :
  let run := CoreSignalMultiSourceAPI.generate_markdown_report_with_llm
               (CoreSignalMultiSourceAPI.mk "example.com" "example_com")
               sample_payload (fun _ => Ok "report") (World ∅ [] []) in
  is_ok run.1 = false /\ llm_log run.2 = [] /\ net_log run.2 = [].
Proof.
  intros run.
  apply (report_needs_schema_file
           (CoreSignalMultiSourceAPI.mk "example.com" "example_com")
           sample_payload (fun _ => Ok "report") (World ∅ [] [])).
  reflexivity.
Defined.

(** ** Delivery: what a reported success means *)

Lemma email_step_success_inv (sv : server) (email : option string)
    (w w' : world) (er : json) :
  email_step sv email w = (Ok er, w') ->
  succeeded er = true ->
  exists to_email svc,
    email = Some to_email /\ to_email <> ""
    /\ EMAIL_SERVICE_AVAILABLE sv = true
    /\ EmailService.__init__ (environ sv) = Ok svc
    /\ EmailService.is_configured svc = true
    /\ smtp_session sv = Ok tt
    /\ er = JObj [("success", JBool true);
                  ("message", JStr ("Report sent to " +:+ to_email))].
Proof.
  unfold email_step, try_except, bind, lift, ret, failure,
    EmailService.send_pdf_report.
  destruct email as [to_email|]; [|by intros [= <- _]].
  destruct (String.eqb to_email "") eqn:Ee; simpl; [by intros [= <- _]|].
  apply String.eqb_neq in Ee.
  destruct (EMAIL_SERVICE_AVAILABLE sv); simpl; [|by intros [= <- _]].
  destruct (EmailService.__init__ (environ sv)) as [svc|e] eqn:Ei; simpl;
    [|by intros [= <- _]].
  destruct (EmailService.is_configured svc) eqn:Ec; simpl; [|by intros [= <- _]].
  destruct (smtp_session sv) as [[]|e]; [|by intros [= <- _]].
  intros [= <- _] _. by exists to_email, svc.
Qed.

(** X15. The e-mail step reports success only when an address was given, the
    e-mail service is loaded and has both credentials, and the SMTP session
    went through; the result then names the recipient. *)
Theorem email_success_means_sent (sv : server) (email : option string)
    (w w' : world) (er : json) :
  email_step sv email w = (Ok er, w') ->
  succeeded er = true ->
  exists to_email svc,
    email = Some to_email /\ to_email <> ""
    /\ EMAIL_SERVICE_AVAILABLE sv = true
    /\ EmailService.__init__ (environ sv) = Ok svc
    /\ EmailService.is_configured svc = true
    /\ smtp_session sv = Ok tt
    /\ er = JObj [("success", JBool true);
                  ("message", JStr ("Report sent to " +:+ to_email))].
Proof. apply email_step_success_inv. Qed.

Lemma email_success_means_sent_witness :
  exists er w' to_email,
    email_step sample_server (Some "me@example.com") (World ∅ [] []) = (Ok er, w')
    /\ er = JObj [("success", JBool true);
                  ("message", JStr ("Report sent to " +:+ to_email))].
Proof.
  eassert (E : email_step sample_server (Some "me@example.com") (World ∅ [] [])
               = (Ok _, _)) by (vm_compute; reflexivity).
  destruct (email_success_means_sent _ _ _ _ _ E eq_refl)
    as (to_email & svc & _ & _ & _ & _ & _ & _ & H).
  eexists _, _, to_email. split; [exact E|exact H].
Defined.

(** X16. The upload step reports success only when the upload was requested,
    the uploader is available, a folder is set, the uploader could be
    built, the PDF exists and the Drive API returned a file; the result
    then carries that file's id and link. *)
Theorem upload_success_means_uploaded (sv : server) (requested : bool)
    (folder_id : option string) (no_folder : string) (w w' : world) (dr : json) :
  drive_step sv requested folder_id no_folder w = (Ok dr, w') ->
  succeeded dr = true ->
  exists file,
    requested = true /\ GOOGLE_DRIVE_AVAILABLE sv = true /\ unset folder_id = false
    /\ uploader_init sv = Ok tt
    /\ is_Some (fs w !! pdf_path sv)
    /\ drive_create sv = Ok file /\ truthy file = true
    /\ field dr "file_id" = field file "id"
    /\ field dr "view_link" = field file "webViewLink".
Proof.
  unfold drive_step, try_except, bind, lift, ret, failure,
    GoogleDriveUploader.upload_file.
  destruct requested; [|by intros [= <- _]].
  destruct (GOOGLE_DRIVE_AVAILABLE sv); simpl; [|by intros [= <- _]].
  destruct (unset folder_id); [by intros [= <- _]|].
  destruct (uploader_init sv) as [[]|e]; simpl; [|by intros [= <- _]].
  destruct (fs w !! pdf_path sv) as [f|] eqn:Ef; simpl;
    [|by destruct (drive_create sv); intros [= <- _]].
  destruct (drive_create sv) as [file|e]; simpl; [|by intros [= <- _]].
  destruct (truthy file) eqn:Et; [|by intros [= <- _]].
  destruct file; simpl; try by intros [= <- _].
  intros [= <- _] _. eexists. repeat split; eauto.
Qed.

Lemma upload_success_means_uploaded_witness :
  exists dr w',
    drive_step sample_server true (Some "folder") "no folder"
      (World (<[pdf_path sample_server := FPdf "report"]> ∅) [] []) = (Ok dr, w')
    /\ field dr "view_link" = JStr "https://drive.example/f1".
Proof.
  eassert (E : drive_step sample_server true (Some "folder") "no folder"
                 (World (<[pdf_path sample_server := FPdf "report"]> ∅) [] [])
               = (Ok _, _)) by (vm_compute; reflexivity).
  destruct (upload_success_means_uploaded _ _ _ _ _ _ _ E eq_refl)
    as (file & _ & _ & _ & _ & _ & Hc & _ & _ & Hl).
  eexists _, _. split; [exact E|]. rewrite Hl.
  injection Hc as <-. reflexivity.
Defined.

(** X17. When pandoc fails, both handlers answer with an HTTP 500 error: no
    summary and no file is returned, whatever was requested. *)
Theorem render_failure_is_an_error (sv : server)
    (request : MultiSourceCompanyResearchRequest)
    (cs_request : CoreSignalCompanyResearchRequest) (w : world) (e : exn) :
  pandoc sv = Raise e ->
  (exists detail, (multi_source_research_endpoint sv request w).1
                  = HTTPException 500 detail)
  /\ (exists detail, (coresignal_generate_pdf_report sv cs_request w).1
                     = HTTPException 500 detail).
Proof.
  intros Hp. split.
  - destruct (multi_source_research_endpoint sv request w) as [r w'] eqn:H.
    apply answer_or_500_inv in H as [H|H]; [done|]. exfalso.
    bind_step H researcher w1 H1. bind_step H res w2 H2.
    bind_step H report w3 H3. bind_step H company_name w4 H4.
    bind_step H raw w5 H5. bind_step H apollo_data w6 H6.
    bind_step H customers_data w7 H7. bind_step H coresignal_data w8 H8.
    bind_step H text w9 H9. bind_step H u10 w10 H10.
    bind_step H safe w11 H11. bind_step H u12 w12 H12.
    bind_step H u13 w13 H13. unfold lift in H13. rewrite Hp in H13. done.
  - destruct (coresignal_generate_pdf_report sv cs_request w) as [r w'] eqn:H.
    apply answer_or_500_inv in H as [H|H]; [done|]. exfalso.
    bind_step H api w1 H1. bind_step H api_response w2 H2.
    bind_step H rep w3 H3. destruct rep as [markdown_report api_response'].
    bind_step H u4 w4 H4. bind_step H company_name w5 H5.
    bind_step H safe w6 H6. bind_step H u7 w7 H7.
    bind_step H u8 w8 H8. unfold lift in H8. rewrite Hp in H8. done.
Qed.

Lemma render_failure_is_an_error_witness :
  let sv := {| environ := environ sample_server;
               GOOGLE_DRIVE_AVAILABLE := true; EMAIL_SERVICE_AVAILABLE := true;
               providers := sample_oracle;
               md_path := "/tmp/tmp1.md"; pdf_path := "/tmp/tmp2.pdf";
               timestamp := "20250101_120000"; now_iso := "2025-01-01T12:00:00";
               pandoc := Raise (Exn CalledProcessError "pandoc");
               uploader_init := Ok tt; drive_create := Ok JNull;
               smtp_session := Ok tt |} in
  exists detail,
    (multi_source_research_endpoint sv (sample_request None false) (World ∅ [] [])).1
    = HTTPException 500 detail.
Proof.
  intros sv.
  exact (proj1 (render_failure_is_an_error sv (sample_request None false)
                  (sample_cs_request None false) (World ∅ [] [])
                  (Exn CalledProcessError "pandoc") eq_refl)).
Defined.

(** ** Background handlers and health check *)

Lemma drive_step_requested sv folder_id no_folder w :
  exists dr, drive_step sv true folder_id no_folder w = (Ok dr, w)
             /\ truthy dr = true.
Proof.
  unfold drive_step, try_except, bind, lift, ret, failure,
    GoogleDriveUploader.upload_file.
  destruct (GOOGLE_DRIVE_AVAILABLE sv); simpl; [|by eexists].
  destruct (unset folder_id); [by eexists|].
  destruct (uploader_init sv) as [[]|e]; simpl; [|by eexists].
  destruct (fs w !! pdf_path sv), (drive_create sv) as [file|e]; simpl;
    try (by eexists).
  destruct (truthy file); [|by eexists].
  destruct file; simpl; by eexists.
Qed.

(** The answer when an address was supplied and the upload was requested:
    a JSON summary that holds the upload outcome. *)
Lemma respond_email_upload sv email summary summary_drive raw pdf_filename dr er w :
  unset email = false -> truthy dr = true ->
  exists content w',
    respond sv email summary summary_drive raw pdf_filename dr er w
    = (Ok (JSONResponse (JObj content)), w')
    /\ assoc "google_drive" content = Some dr.
Proof.
  intros He Hd. unfold respond, bind, ret. rewrite He, Hd. cbn [negb set_if].
  destruct (cleanup_spec sv w) as (wc & Hc & _).
  assert (Hg : forall base, assoc "google_drive" base = Some dr ->
            assoc "google_drive"
              (match raw with
               | Some r => assoc_set "raw_data" r
                             (set_if (truthy er) "email_result" er base)
               | None => set_if (truthy er) "email_result" er base
               end) = Some dr).
  { intros base Hb. unfold set_if.
    destruct raw, (truthy er); rewrite ?assoc_assoc_set_ne by done; done. }
  destruct (succeeded er || succeeded dr); rewrite ?Hc;
    eexists _, _; (split; [reflexivity|]); apply Hg, assoc_assoc_set.
Qed.

(** X18. The detached task of either background handler is always started
    with the upload switched on and the interface folder of the
    environment; when the address is not empty its answer is an HTTP 500
    error or a JSON summary that holds the upload outcome, never the
    file. *)
Theorem background_task_reports_by_summary (sv : server)
    (request : MultiSourceBackgroundCompanyResearchRequest)
    (cs_request : BackgroundCompanyResearchRequest) (w : world) :
  bg_email request <> "" -> cbg_email cs_request <> "" ->
  let task := (multi_source_research_background sv request).2 in
  let cs_task := (coresignal_generate_pdf_background sv cs_request).2 in
  (upload_to_drive task = true /\ cs_upload_to_drive cs_task = true
   /\ upload_to_drive_folder_id task
      = os_getenv (environ sv) "GOOGLE_DRIVE_INTERFACE_FOLDER_ID"
   /\ cs_upload_to_drive_folder_id cs_task
      = os_getenv (environ sv) "GOOGLE_DRIVE_INTERFACE_FOLDER_ID")
  /\ ((exists detail, (multi_source_research_endpoint sv task w).1
                      = HTTPException 500 detail)
      \/ exists content dr,
           (multi_source_research_endpoint sv task w).1 = JSONResponse (JObj content)
           /\ assoc "google_drive" content = Some dr)
  /\ ((exists detail, (coresignal_generate_pdf_report sv cs_task w).1
                      = HTTPException 500 detail)
      \/ exists content dr,
           (coresignal_generate_pdf_report sv cs_task w).1 = JSONResponse (JObj content)
           /\ assoc "google_drive" content = Some dr).
Proof.
  intros He Hce task cs_task. split; [done|].
  assert (Hu : unset (Some (bg_email request)) = false)
    by (simpl; by apply String.eqb_neq).
  assert (Hcu : unset (Some (cbg_email cs_request)) = false)
    by (simpl; by apply String.eqb_neq).
  split.
  - destruct (multi_source_research_endpoint sv task w) as [r w'] eqn:H.
    apply multi_source_endpoint_inv in H
      as [H | (cn & fn & raw & text & w0 & d & _ & Hd & ->)]; [by left|right].
    revert Hd. unfold multi_source_deliver, bind, ret.
    destruct (drive_step_requested sv (upload_to_drive_folder_id task)
                "Google Drive upload folder ID is not set" w0) as (dr & Hdr & Ht).
    change (upload_to_drive task) with true. rewrite Hdr.
    destruct (email_step_spec sv (email task) w0) as (er & -> & _).
    edestruct (respond_email_upload sv (email task)) as (content & w1 & -> & Hg);
      [exact Hu | exact Ht |].
    intros [= <- _]. by exists content, dr.
  - destruct (coresignal_generate_pdf_report sv cs_task w) as [r w'] eqn:H.
    apply coresignal_endpoint_inv in H
      as [H | (cn & fn & text & w0 & d & _ & Hd & ->)]; [by left|right].
    revert Hd. unfold coresignal_deliver, bind, ret.
    destruct (drive_step_requested sv (cs_upload_to_drive_folder_id cs_task)
                "Google Drive folder ID is required for upload. Please provide upload_to_drive_folder_id."
                w0) as (dr & Hdr & Ht).
    change (cs_upload_to_drive cs_task) with true. rewrite Hdr.
    destruct (email_step_spec sv (cs_email cs_task) w0) as (er & -> & _).
    edestruct (respond_email_upload sv (cs_email cs_task)) as (content & w1 & -> & Hg);
      [exact Hcu | exact Ht |].
    intros [= <- _]. by exists content, dr.
Qed.

Lemma background_task_reports_by_summary_witness :
  let task := (multi_source_research_background sample_server
                 {| bg_website := "https://www.example.com";
                    bg_email := "me@example.com" |}).2 in
  (exists detail, (multi_source_research_endpoint sample_server task (World ∅ [] [])).1
                  = HTTPException 500 detail)
  \/ exists content dr,
       (multi_source_research_endpoint sample_server task (World ∅ [] [])).1
       = JSONResponse (JObj content)
       /\ assoc "google_drive" content = Some dr.
Proof.
  intros task.
  exact (proj1 (proj2 (background_task_reports_by_summary sample_server
                         {| bg_website := "https://www.example.com";
                            bg_email := "me@example.com" |}
                         {| cbg_website := "example.com"; cbg_email := "me@example.com" |}
                         (World ∅ [] []) ltac:(discriminate) ltac:(discriminate)))).
Defined.


(** ** Drive: listing and authentication *)

Lemma file_info_keys file info :
  file_info file = Ok info ->
  exists kvs, info = JObj kvs
    /\ kvs.*1 = ["id"; "name"; "mimeType"; "size"; "createdTime"; "modifiedTime";
                 "webViewLink"; "webContentLink"].
Proof.
  unfold file_info. destruct file; try done. cbn. intros [= <-]. by eexists.
Qed.

(** X20. The listing handler answers 400 only when the Drive module is
    missing. With the module loaded, a request without any folder id (none
    in the request, none in the environment) gets a 500: the 400 raised
    inside the handler's [try] block is caught by its own last [except]
    clause. A JSON answer counts the files it lists, one entry of eight
    fixed keys per file. *)
Theorem drive_listing_statuses (sv : server) (folder_id : option string)
    (listing : result json) :
  (GOOGLE_DRIVE_AVAILABLE sv = false ->
   exists detail, list_drive_files sv folder_id listing = HTTPException 400 detail)
  /\ (GOOGLE_DRIVE_AVAILABLE sv = true ->
      (forall detail, list_drive_files sv folder_id listing <> HTTPException 400 detail)
      /\ (unset folder_id = true ->
          unset (os_getenv (environ sv) "GOOGLE_DRIVE_INTERFACE_FOLDER_ID") = true ->
          exists detail,
            list_drive_files sv folder_id listing = HTTPException 500 detail))
  /\ (forall content,
        list_drive_files sv folder_id listing = JSONResponse content ->
        exists infos,
          field content "files" = JList infos
          /\ field content "file_count" = JNum (Z.of_nat (length infos))
          /\ Forall (fun info => exists kvs, info = JObj kvs
                       /\ kvs.*1 = ["id"; "name"; "mimeType"; "size"; "createdTime";
                                    "modifiedTime"; "webViewLink"; "webContentLink"])
               infos).
Proof.
  unfold list_drive_files. split; [|split].
  - intros ->. simpl. by eexists.
  - intros ->. simpl. split.
    + intros detail. by case_match.
    + intros Hf He. rewrite Hf.
      destruct (uploader_init sv) as [[]|e]; simpl; [|by eexists].
      destruct (os_getenv (environ sv) "GOOGLE_DRIVE_INTERFACE_FOLDER_ID")
        as [t|]; simpl in *; [rewrite He|]; by eexists.
  - intros content.
    destruct (GOOGLE_DRIVE_AVAILABLE sv); simpl; [|done].
    destruct (uploader_init sv) as [[]|e]; simpl; [|done].
    destruct (if unset folder_id then _ else _) as [target|]; [|done].
    destruct (String.eqb target ""); [done|].
    destruct listing as [results|e]; simpl; [|done].
    destruct (py_get_default results "files" (JList [])) as [files|]; simpl; [|done].
    destruct files as [| | | |l|]; try done.
    destruct (mapM file_info l) as [infos|] eqn:E; simpl; [|done].
    intros [= <-]. exists infos. cbn. split; [done|].
    apply mapM_Forall2 in E. split.
    + by rewrite (Forall2_length _ _ _ E).
    + clear -E. induction E as [|f i l infos Hf _ IH]; constructor; [|done].
      by eapply file_info_keys.
Qed.

(** X21. The uploader is built only from a service-account file: when
    [_authenticate] returns, the file exists and holds a JSON object whose
    [type] is "service_account", the credentials were accepted and nothing
    was written. A missing file raises [FileNotFoundError]; a file that is
    not JSON raises [ValueError]. *)
Theorem authenticate_requires_service_account (path : string)
    (credentials : result unit) (w : world) :
  (forall w', _authenticate path credentials w = (Ok tt, w') ->
     w' = w /\ credentials = Ok tt
     /\ exists kvs, fs w !! path = Some (FJson (JObj kvs))
                    /\ assoc "type" kvs = Some (JStr "service_account"))
  /\ (fs w !! path = None ->
      exists e, _authenticate path credentials w = (Raise e, w)
                /\ exn_cls e = FileNotFoundError)
  /\ (fs w !! path = Some FInvalidJson ->
      exists e, _authenticate path credentials w = (Raise e, w)
                /\ exn_cls e = ValueError).
Proof.
  unfold _authenticate, bind, exists_file, try_except, json_load, lift, ret, raise.
  split; [|split].
  - intros w'.
    destruct (fs w !! path) as [[j| | | | |]|] eqn:E; rewrite ?E; simpl;
      rewrite ?E; simpl; try done.
    destruct j as [| | | | |kvs]; simpl; try done.
    destruct (assoc "type" kvs) as [[| | |t| |]|] eqn:Et; simpl; try done.
    destruct (String.eqb t "service_account") eqn:Es; simpl; [|done].
    apply String.eqb_eq in Es as ->.
    destruct credentials as [[]|]; [|done]. intros [= <-]. eauto.
  - intros E. rewrite E. simpl. by eexists.
  - intros E. rewrite E. simpl. rewrite E. simpl. by eexists.
Qed.

(** ** Formatting search hits *)

Lemma concat_lines_head l ls :
  exists rest, String.concat nl (l :: ls) = l +:+ rest.
Proof.
  destruct ls as [|l' ls].
  - exists "". cbn [String.concat].
    induction l as [|c l IH]; [done|].
    change (String c l = String c (l +:+ "")). by f_equal.
  - by eexists.
Qed.

(** X22. The text for a list of hits is the sentence "No relevant data found"
    exactly when the list is empty, and outside the news section the
    publication dates play no part in it. *)
Theorem formatted_hits (results : list TavilySearchResult) (section : string) :
  (format_tavily_results results section = "No relevant data found" <-> results = [])
  /\ (section <> "news" ->
      format_tavily_results (without_date <$> results) section
      = format_tavily_results results section).
Proof.
  split.
  - split; [|by intros ->].
    destruct results as [|r results]; [done|].
    unfold format_tavily_results. cbn [fmap list_fmap].
    destruct (concat_lines_head (format_line section r)
                (format_line section <$> results)) as [rest ->].
    unfold format_line. destruct (String.eqb section "news"); discriminate.
  - intros Hs. apply String.eqb_neq in Hs.
    destruct results as [|r results]; [done|].
    unfold format_tavily_results. cbn [fmap list_fmap]. f_equal.
    assert (Hl : forall x, format_line section (without_date x) = format_line section x)
      by (intros x; unfold format_line; by rewrite Hs).
    rewrite Hl. f_equal. rewrite <- list_fmap_compose.
    apply list_fmap_ext. intros ? x _. apply Hl.
Qed.

(** ** The template report *)

Lemma rbind_ok_inv {A B} (m : result A) (f : A -> result B) b :
  m ≫= f = Ok b -> exists a, m = Ok a /\ f a = Ok b.
Proof. destruct m as [a|e]; [eauto|done]. Qed.

Ltac rbind H x Hx := apply rbind_ok_inv in H as (x & Hx & H).

Lemma presence_inv api_response p :
  TemplateReport.presence api_response = Ok p ->
  exists kvs v z, api_response = JObj kvs /\
    assoc "followers_count_linkedin" kvs = Some v /\ numeric v = Some z /\
    Lit (thousands z) ∈ p.
Proof.
  unfold TemplateReport.presence. intros H.
  destruct api_response as [| | | | |kvs]; try done.
  cbn [py_get_default] in H. cbn [mbind result_bind] in H.
  destruct (assoc "followers_count_linkedin" kvs) as [v|] eqn:E; [|done].
  exists kvs, v.
  destruct v as [|b|z| | |]; try done; cbn in H; apply Ok_inj in H; subst p.
  - eexists. repeat split; try done. set_solver.
  - eexists. repeat split; try done. set_solver.
Qed.

(** X23. The template report exists only for a payload that holds a follower
    count: whenever [generate_markdown_report] returns, the payload is an
    object whose [followers_count_linkedin] is a number, shown with
    thousands separators. A payload without the key never gets a report:
    the default "Not Found" does not take the format [:,]. *)
Theorem template_report_needs_follower_count (api_response : json) (r : fstring) :
  TemplateReport.generate_markdown_report api_response = Ok r ->
  exists kvs v z, api_response = JObj kvs /\
    assoc "followers_count_linkedin" kvs = Some v /\ numeric v = Some z /\
    Lit (thousands z) ∈ r.
Proof.
  unfold TemplateReport.generate_markdown_report. intros H.
  rbind H h Hh. rbind H es Hes. rbind H ceo Hceo. rbind H p Hp.
  rbind H g Hg. rbind H f Hf. rbind H n Hn. rbind H c Hc. rbind H k Hk.
  rbind H t Ht. apply Ok_inj in H. subst r.
  destruct (presence_inv _ _ Hp) as (kvs & v & z & -> & Hv & Hz & Hin).
  exists kvs, v, z. repeat split; try done.
  rewrite !elem_of_app. auto.
Qed.

Lemma template_report_needs_follower_count_witness :
  exists r, TemplateReport.generate_markdown_report
              (JObj [("company_name", JStr "Acme");
                     ("followers_count_linkedin", JNum 1234567)]) = Ok r
            /\ Lit "1,234,567" ∈ r.
Proof.
  eassert (E : TemplateReport.generate_markdown_report
                 (JObj [("company_name", JStr "Acme");
                        ("followers_count_linkedin", JNum 1234567)]) = Ok _)
    by (vm_compute; reflexivity).
  eexists. split; [exact E|].
  destruct (template_report_needs_follower_count _ _ E)
    as (kvs & v & z & Hk & Hv & Hz & Hin).
  apply (f_equal (fun j => match j with JObj l => l | _ => [] end)) in Hk.
  subst kvs. vm_compute in Hv. apply (f_equal (default JNull)) in Hv.
  cbn in Hv. subst v. cbn in Hz. injection Hz as <-. exact Hin.
Defined.

(** X24. The CEO profile is that of the first employee whose title, in lower
    case, holds "ceo", "chief executive officer" or "founder": with
    employees before it whose titles hold none of these, the section is
    the one that employee alone would give, it shows that employee's name
    (or "Not Found"), and whoever comes after is not looked at. *)
Theorem first_chief_is_profiled (pre post : list json)
    (kvs : list (string * json)) (t : string) :
  Forall (fun e => exists t', py_get_default e "job_title" (JStr "") ≫= py_lower = Ok t'
                              /\ TemplateReport.is_chief t' = false) pre ->
  py_get_default (JObj kvs) "job_title" (JStr "") ≫= py_lower = Ok t ->
  TemplateReport.is_chief t = true ->
  TemplateReport.ceo_profile (pre ++ JObj kvs :: post)
  = TemplateReport.ceo_profile [JObj kvs]
  /\ exists r, TemplateReport.ceo_profile [JObj kvs] = Ok r
     /\ Hole (default (JStr "Not Found") (assoc "full_name" kvs)) ∈ r
     /\ Lit ("CEO information not found." +:+ nl) ∉ r.
Proof.
  intros Hpre Ht Hc. split.
  - induction Hpre as [|e pre (t' & Ht' & Hc') _ IH].
    + cbn [app TemplateReport.ceo_profile]. rewrite Ht. cbn [mbind result_bind].
      by rewrite Hc.
    + cbn [app TemplateReport.ceo_profile]. rewrite Ht'. cbn [mbind result_bind].
      rewrite Hc'. rewrite IH. cbn [TemplateReport.ceo_profile].
      rewrite Ht. cbn [mbind result_bind]. by rewrite Hc.
  - cbn [TemplateReport.ceo_profile]. rewrite Ht. cbn [mbind result_bind].
    rewrite Hc. cbn [py_get_default mbind result_bind].
    eexists. split; [done|]. split.
    + unfold default. set_solver.
    + rewrite !elem_of_cons, elem_of_nil. intros H.
      repeat (destruct H as [H|H]; [by vm_compute in H|]). done.
Qed.

Lemma first_chief_is_profiled_witness :
  TemplateReport.ceo_profile
    [JObj [("job_title", JStr "Engineer")];
     JObj [("full_name", JStr "Ada"); ("job_title", JStr "Co-Founder & CTO")];
     JObj [("full_name", JStr "Grace"); ("job_title", JStr "CEO")]]
  = TemplateReport.ceo_profile
      [JObj [("full_name", JStr "Ada"); ("job_title", JStr "Co-Founder & CTO")]]
  /\ exists r,
       TemplateReport.ceo_profile
         [JObj [("full_name", JStr "Ada"); ("job_title", JStr "Co-Founder & CTO")]]
       = Ok r
       /\ Hole (JStr "Ada") ∈ r
       /\ Lit ("CEO information not found." +:+ nl) ∉ r.
Proof.
  apply (first_chief_is_profiled
           [JObj [("job_title", JStr "Engineer")]]
           [JObj [("full_name", JStr "Grace"); ("job_title", JStr "CEO")]]
           [("full_name", JStr "Ada"); ("job_title", JStr "Co-Founder & CTO")]
           "co-founder & cto").
  - repeat constructor. exists "engineer". by vm_compute.
  - by vm_compute.
  - by vm_compute.
Defined.

Lemma header_flat kvs :
  assoc "status" kvs = None -> exists h, TemplateReport.header (JObj kvs) = Ok h.
Proof.
  intros E. unfold TemplateReport.header. cbn [py_get_default mbind result_bind].
  rewrite E. cbn [py_get_default mbind result_bind]. by eexists.
Qed.

Lemma presence_numeric kvs v z :
  assoc "followers_count_linkedin" kvs = Some v -> numeric v = Some z ->
  exists p, TemplateReport.presence (JObj kvs) = Ok p.
Proof.
  intros E Hz. unfold TemplateReport.presence.
  cbn [py_get_default mbind result_bind]. rewrite E.
  destruct v; try done; by eexists.
Qed.

Lemma geography_flat kvs :
  assoc "employees_count_history" kvs = None ->
  TemplateReport.geography (JObj kvs)
  = Ok [Lit ("Geographic distribution data not available." +:+ nl)].
Proof.
  intros E. unfold TemplateReport.geography.
  cbn [py_get_default mbind result_bind]. by rewrite E.
Qed.

Lemma funding_flat kvs :
  assoc "funding_info" kvs = None -> assoc "status" kvs = None ->
  TemplateReport.funding (JObj kvs)
  = Ok [Lit (nl +:+ nl +:+ "## Financing/Funding & Type" +:+ nl +:+ nl);
        Lit ("Funding information not available in current data source." +:+ nl)].
Proof.
  intros E E'. unfold TemplateReport.funding.
  cbn [py_get_default mbind result_bind]. rewrite E, E'. reflexivity.
Qed.

Lemma news_flat kvs :
  assoc "company_updates" kvs = None ->
  TemplateReport.news (JObj kvs)
  = Ok [Lit (nl +:+ nl +:+ "## 3 Recent News Items" +:+ nl +:+ nl);
        Lit ("No recent news items found." +:+ nl +:+ nl)].
Proof.
  intros E. unfold TemplateReport.news.
  cbn [py_get_default mbind result_bind]. by rewrite E.
Qed.

Lemma customers_flat kvs :
  assoc "customers" kvs = None -> assoc "enterprise_customers" kvs = None ->
  TemplateReport.customers (JObj kvs)
  = Ok [Lit ("## Enterprise Customers" +:+ nl +:+ nl);
        Lit ("Enterprise customer information not available in current data source."
             +:+ nl)].
Proof.
  intros E E'. unfold TemplateReport.customers.
  cbn [py_get_default mbind result_bind]. by rewrite E, E'.
Qed.

Lemma competition_flat kvs :
  assoc "competitors" kvs = None -> assoc "competition" kvs = None ->
  assoc "categories_and_keywords" kvs = None ->
  TemplateReport.competition (JObj kvs)
  = Ok [Lit (nl +:+ nl +:+ "## Competition & Basic Description" +:+ nl +:+ nl);
        Lit ("Direct competitor information not available. Based on industry keywords, potential competitors may include companies in:"
             +:+ nl)].
Proof.
  intros E E' E''. unfold TemplateReport.competition.
  cbn [py_get_default mbind result_bind]. by rewrite E, E', E''.
Qed.

(** X25. A flat payload gets a report made of fallbacks: with a numeric follower
    count and none of the structured keys (status, employees, head-count
    history, funding, updates, customers, competitors, keywords), whatever
    else the payload holds, the template report is returned and carries
    the "not found" or "not available" line of each of the six sections. *)
Theorem flat_payload_renders_fallbacks (kvs : list (string * json))
    (v : json) (z : Z) :
  assoc "followers_count_linkedin" kvs = Some v -> numeric v = Some z ->
  Forall (fun k => assoc k kvs = None)
    ["status"; "employees"; "employees_count_history"; "funding_info";
     "company_updates"; "customers"; "enterprise_customers"; "competitors";
     "competition"; "categories_and_keywords"] ->
  exists r, TemplateReport.generate_markdown_report (JObj kvs) = Ok r /\
    Forall (fun line => Lit (line +:+ nl) ∈ r)
      ["CEO information not found.";
       "Geographic distribution data not available.";
       "Funding information not available in current data source.";
       "No recent news items found." +:+ nl;
       "Enterprise customer information not available in current data source.";
       "Direct competitor information not available. Based on industry keywords, potential competitors may include companies in:"].
Proof.
  intros Hv Hz Hk.
  apply Forall_cons in Hk as [Hstatus Hk]. apply Forall_cons in Hk as [Hemp Hk].
  apply Forall_cons in Hk as [Hhist Hk]. apply Forall_cons in Hk as [Hfund Hk].
  apply Forall_cons in Hk as [Hupd Hk]. apply Forall_cons in Hk as [Hcust Hk].
  apply Forall_cons in Hk as [Hent Hk]. apply Forall_cons in Hk as [Hcomp Hk].
  apply Forall_cons in Hk as [Hcomp' Hk]. apply Forall_cons in Hk as [Hkey _].
  destruct (header_flat kvs Hstatus) as [h Hh].
  destruct (presence_numeric kvs v z Hv Hz) as [p Hp].
  unfold TemplateReport.generate_markdown_report.
  rewrite Hh, Hp, (geography_flat kvs Hhist), (funding_flat kvs Hfund Hstatus),
    (news_flat kvs Hupd), (customers_flat kvs Hcust Hent),
    (competition_flat kvs Hcomp Hcomp' Hkey).
  unfold TemplateReport.footer. cbn [py_get_default mbind result_bind].
  rewrite Hemp. cbn [py_iter mbind result_bind TemplateReport.ceo_profile].
  eexists. split; [reflexivity|].
  repeat (apply Forall_cons; split); [..|by apply Forall_nil].
  all: vm_compute.
  all: repeat first [ apply list_elem_of_here | apply list_elem_of_further
                    | apply elem_of_app; right ].
Qed.

Lemma flat_payload_renders_fallbacks_witness :
  exists r,
    TemplateReport.generate_markdown_report
      (JObj [("company_name", JStr "Acme"); ("followers_count_linkedin", JNum 5200)])
    = Ok r /\
    Forall (fun line => Lit (line +:+ nl) ∈ r)
      ["CEO information not found.";
       "Geographic distribution data not available.";
       "Funding information not available in current data source.";
       "No recent news items found." +:+ nl;
       "Enterprise customer information not available in current data source.";
       "Direct competitor information not available. Based on industry keywords, potential competitors may include companies in:"].
Proof.
  apply (flat_payload_renders_fallbacks
           [("company_name", JStr "Acme"); ("followers_count_linkedin", JNum 5200)]
           (JNum 5200) 5200).
  - reflexivity.
  - reflexivity.
  - repeat constructor.
Defined.
